(** * oidbt_torrent: a shallow embedding of [torrent.py]

    The development follows [src/oidbt_torrent/torrent.py]: the decoded
    bencode value model, the Pydantic models [Torrent.Data] and
    [Torrent.Data.Info], the format classifier, the hash accessors, the
    constructor [__init__] with its checks, the size aggregation
    ([_get_file_tree_xl], [_get_files_xl], [get_xl]) and the magnet builder
    ([get_magnet]).

    External collaborators (the bencode codec, hashlib's digests and the one
    lax coercion of Pydantic that can fire on decoded bencode values) are
    gathered in the class [Collaborators]; every theorem holds for all of
    its instances. *)

From Stdlib Require Import ZArith List String Ascii Bool Lia DecimalString.
From Stdlib Require Import Permutation.
Import ListNotations.

Local Open Scope string_scope.
Local Open Scope list_scope.
Local Open Scope Z_scope.

(** ** Values *)

(** Python [bytes]: a sequence of 8-bit characters. *)
Definition bytes := string.

(** Python [str].  A text is represented by its UTF-8 encoding, so that
    [bytes.decode()] is the identity on the byte strings it accepts. *)
Definition str := string.

(** What [bdecode] produces: byte strings, integers, lists and dicts with
    byte-string keys.  A dict is kept as the list of its items, in order. *)
#[local] Unset Elimination Schemes.
Inductive RawValue : Type :=
| VBytes (b : bytes)
| VInt (z : Z)
| VList (l : list RawValue)
| VDict (d : list (bytes * RawValue)).
#[local] Set Elimination Schemes.

Definition Dict := list (bytes * RawValue).

(** Induction principle that reaches the values stored in lists and dicts. *)
Definition RawValue_nested_ind (P : RawValue -> Prop)
  (Hbytes : forall b, P (VBytes b))
  (Hint : forall z, P (VInt z))
  (Hlist : forall l, Forall P l -> P (VList l))
  (Hdict : forall d, Forall (fun kv => P (snd kv)) d -> P (VDict d))
  : forall v, P v :=
  fix go (v : RawValue) : P v :=
    match v with
    | VBytes b => Hbytes b
    | VInt z => Hint z
    | VList l =>
        Hlist l ((fix items (xs : list RawValue) : Forall P xs :=
                    match xs with
                    | [] => Forall_nil P
                    | x :: xs' => Forall_cons x (go x) (items xs')
                    end) l)
    | VDict d =>
        Hdict d ((fix items (xs : Dict) : Forall (fun kv => P (snd kv)) xs :=
                    match xs with
                    | [] => Forall_nil _
                    | kv :: xs' =>
                        Forall_cons (P := fun kv => P (snd kv)) kv
                          (go (snd kv)) (items xs')
                    end) d)
    end.

(** [d[k]] / [k in d] on a dict kept as an item list. *)
Fixpoint dict_get {K V : Type} (eqb : K -> K -> bool) (k : K)
  (d : list (K * V)) : option V :=
  match d with
  | [] => None
  | (k', v) :: d' => if eqb k' k then Some v else dict_get eqb k d'
  end.

Definition keys_distinct (d : Dict) : bool :=
  (fix go (l : Dict) : bool :=
     match l with
     | [] => true
     | (k, _) :: l' =>
         negb (existsb (fun kv => String.eqb (fst kv) k) l') && go l'
     end) d.

(** A Python dict never holds one key twice; [dict_ok v] says so for every
    dict inside [v]. *)
Fixpoint dict_ok (v : RawValue) : bool :=
  match v with
  | VBytes _ | VInt _ => true
  | VList l => forallb dict_ok l
  | VDict d => keys_distinct d && forallb (fun kv => dict_ok (snd kv)) d
  end.

(** ** The type aliases of [Torrent.Data.Info]

    [type File = dict[bytes, bytes | int | list[bytes]]]
    [type File_tree = dict[bytes, File_tree | File]] *)

Definition is_dict (v : RawValue) : bool :=
  match v with VDict _ => true | _ => false end.

Definition is_bytes (v : RawValue) : bool :=
  match v with VBytes _ => true | _ => false end.

Definition is_File_value (v : RawValue) : bool :=
  match v with
  | VBytes _ | VInt _ => true
  | VList l => forallb is_bytes l
  | VDict _ => false
  end.

Definition is_File (v : RawValue) : bool :=
  match v with
  | VDict d => forallb (fun kv => is_File_value (snd kv)) d
  | _ => false
  end.

Fixpoint is_File_tree (v : RawValue) : bool :=
  match v with
  | VDict d => forallb (fun kv => is_File_tree (snd kv) || is_File (snd kv)) d
  | _ => false
  end.

(** ** Size aggregation: the loop of [_get_file_tree_xl]

    [[
        xl: int = 0
        for k, v in point.items():
            if k == b"length" and isinstance(v, int):
                xl += v
            elif isinstance(v, dict):
                xl += self._get_file_tree_xl(v)
        return xl
    ]] *)
Section Point_items.
(** [rec] stands for the recursive call [self._get_file_tree_xl(v)]. *)
Variable rec : RawValue -> Z.

Fixpoint items_xl (items : Dict) (xl : Z) : Z :=
  match items with
  | [] => xl
  | (k, v) :: items' =>
      match v with
      | VInt n =>
          if String.eqb k "length" then items_xl items' (xl + n)
          else items_xl items' xl
      | VDict _ => items_xl items' (xl + rec v)
      | _ => items_xl items' xl
      end
  end.
End Point_items.

(** [point] is a dict in every call of the source; the last case is never
    reached from there. *)
Fixpoint point_xl (point : RawValue) : Z :=
  match point with
  | VDict d => items_xl point_xl d 0
  | _ => 0
  end.

(** ** Exceptions and results *)

(** The messages of [Torrent.Parse_error] in the source. *)
Inductive Parse_message : Type :=
| Not_a_dict            (* "结构不是 dict" *)
| Key_not_bytes         (* "第一层有 key 不是 bytes" *)
| Pydantic_rejected     (* "Pydantic 检测不通过" *)
| Bad_file_format.      (* "文件格式错误" *)

Inductive exn : Type :=
| Parse_error (msg : Parse_message)
| ValueError            (* get_torrent_format: "未知的 torrent format" *)
| AssertionError
| KeyError
| AttributeError
| TypeError
| UnicodeDecodeError
| BencodeDecodeError.

Inductive result (A : Type) : Type :=
| Ok (a : A)
| Raise (e : exn).
Arguments Ok {A} a.
Arguments Raise {A} e.

Definition bind {A B : Type} (r : result A) (k : A -> result B) : result B :=
  match r with
  | Ok a => k a
  | Raise e => Raise e
  end.

Notation "'do' x <- r ; k" := (bind r (fun x => k))
  (at level 10, x pattern, r at level 100, k at level 200).

Definition obind {A B : Type} (o : option A) (k : A -> option B) : option B :=
  match o with
  | Some a => k a
  | None => None
  end.

Notation "'let?' x := o 'in' k" := (obind o (fun x => k))
  (at level 10, x pattern, o at level 100, k at level 200).

(** ** External collaborators *)

(** [bdecode]/[bencode] are bencode2's codec ([None]: [bdecode] raises),
    [sha1]/[sha256] map a message to hashlib's digest, and
    [int_of_bytes_lax] is the lax-mode coercion Pydantic applies when an
    [int] field receives a byte string ([None]: the value is rejected). *)
Class Collaborators : Type := {
  bdecode : bytes -> option RawValue;
  bencode : RawValue -> bytes;
  sha1 : bytes -> bytes;
  sha256 : bytes -> bytes;
  int_of_bytes_lax : bytes -> option Z
}.

(** A [hashlib] hash object, kept as its digest. *)
Definition HASH := bytes.

(** ** [bytes.decode()]: strict UTF-8 *)

Definition byte_val (c : ascii) : Z := Z.of_N (N_of_ascii c).

Definition between (lo hi : Z) (c : ascii) : bool :=
  (lo <=? byte_val c) && (byte_val c <=? hi).

Definition continuation : ascii -> bool := between 128 191.

Fixpoint utf8_valid (s : bytes) : bool :=
  match s with
  | EmptyString => true
  | String c r =>
      if between 0 127 c then utf8_valid r
      else if between 194 223 c then
        match r with
        | String c1 r1 => continuation c1 && utf8_valid r1
        | _ => false
        end
      else if between 224 239 c then
        match r with
        | String c1 (String c2 r2) =>
            (if between 224 224 c then between 160 191 c1
             else if between 237 237 c then between 128 159 c1
             else continuation c1)
            && continuation c2 && utf8_valid r2
        | _ => false
        end
      else if between 240 244 c then
        match r with
        | String c1 (String c2 (String c3 r3)) =>
            (if between 240 240 c then between 144 191 c1
             else if between 244 244 c then between 128 143 c1
             else continuation c1)
            && continuation c2 && continuation c3 && utf8_valid r3
        | _ => false
        end
      else false
  end.

Definition decode (k : bytes) : result str :=
  if utf8_valid k then Ok k else Raise UnicodeDecodeError.

(** ** [get_str_key_data_dict] *)

(** The keyword dict handed to Pydantic: keys are [str]; the value under
    [b"info"] (when it is a dict) is converted in the same way, every other
    value is passed on as it is. *)
#[local] Unset Elimination Schemes.
Inductive KwValue : Type :=
| Raw (v : RawValue)
| StrDict (d : list (str * KwValue)).
#[local] Set Elimination Schemes.

Definition Kwargs := list (str * KwValue).

Section Str_key_items.
(** [rec] stands for the recursive call [self.get_str_key_data_dict(v)]. *)
Variable rec : RawValue -> result Kwargs.

Fixpoint str_key_items (items : Dict) : result Kwargs :=
  match items with
  | [] => Ok []
  | (k, v) :: items' =>
      do k' <- decode k;
      do v' <- (if is_dict v && String.eqb k "info"
                then do d' <- rec v; Ok (StrDict d')
                else Ok (Raw v));
      do r <- str_key_items items';
      Ok ((k', v') :: r)
  end.
End Str_key_items.

(** Every key of a decoded dict is a byte string, so only the branch
    [k.decode()] of the key conversion is needed.  A value that is not a
    dict has no [items()]. *)
Fixpoint get_str_key_data_dict (data_dict : RawValue) : result Kwargs :=
  match data_dict with
  | VDict d => str_key_items get_str_key_data_dict d
  | _ => Raise AttributeError
  end.

(** ** Pydantic field validation

    Only the shapes [bdecode] can produce reach the models.  A field of type
    [bytes], [list[...]] or [dict[...]] accepts exactly that shape; an [int]
    field accepts an integer and, in Pydantic's default lax mode, a byte
    string that [int_of_bytes_lax] reads as one.  Validated values are
    returned unchanged. *)

Fixpoint traverse {A B : Type} (f : A -> option B) (l : list A)
  : option (list B) :=
  match l with
  | [] => Some []
  | a :: l' =>
      let? b := f a in
      let? r := traverse f l' in
      Some (b :: r)
  end.

Definition raw_bytes (v : RawValue) : option bytes :=
  match v with VBytes b => Some b | _ => None end.

Definition raw_list_bytes (v : RawValue) : option (list bytes) :=
  match v with VList l => traverse raw_bytes l | _ => None end.

Definition raw_File (v : RawValue) : option Dict :=
  match v with
  | VDict d => if is_File v then Some d else None
  | _ => None
  end.

Definition as_bytes (v : KwValue) : option bytes :=
  match v with Raw r => raw_bytes r | StrDict _ => None end.

Definition as_int `{Collaborators} (v : KwValue) : option Z :=
  match v with
  | Raw (VInt z) => Some z
  | Raw (VBytes b) => int_of_bytes_lax b
  | _ => None
  end.

(** [list[list[bytes]]] *)
Definition as_announce_list (v : KwValue) : option (list (list bytes)) :=
  match v with
  | Raw (VList l) => traverse raw_list_bytes l
  | _ => None
  end.

(** [list[bytes] | bytes] *)
Inductive Url_list : Type :=
| Urls (l : list bytes)
| Url (b : bytes).

Definition as_url_list (v : KwValue) : option Url_list :=
  match v with
  | Raw (VBytes b) => Some (Url b)
  | Raw (VList l) => let? l' := traverse raw_bytes l in Some (Urls l')
  | _ => None
  end.

(** [dict[bytes, bytes]] *)
Definition as_piece_layers (v : KwValue) : option (list (bytes * bytes)) :=
  match v with
  | Raw (VDict d) =>
      traverse (fun kv => let? b := raw_bytes (snd kv) in Some (fst kv, b)) d
  | _ => None
  end.

(** [list[File]] *)
Definition as_files (v : KwValue) : option (list Dict) :=
  match v with
  | Raw (VList l) => traverse raw_File l
  | _ => None
  end.

(** [File_tree] *)
Definition as_File_tree (v : KwValue) : option Dict :=
  match v with
  | Raw (VDict d) => if is_File_tree (VDict d) then Some d else None
  | _ => None
  end.

(** A field without default: the key must be there. *)
Definition required {A : Type} (validate : KwValue -> option A)
  (kw : Kwargs) (alias : str) : option A :=
  let? v := dict_get String.eqb alias kw in validate v.

(** A field [T | None] with [default=None]. *)
Definition optional {A : Type} (validate : KwValue -> option A)
  (kw : Kwargs) (alias : str) : option (option A) :=
  match dict_get String.eqb alias kw with
  | None => Some None
  | Some v => let? a := validate v in Some (Some a)
  end.

(** [extra="allow"]: the items whose key names no field. *)
Definition extra_fields (aliases : list str) (kw : Kwargs) : Kwargs :=
  filter (fun kv => negb (existsb (String.eqb (fst kv)) aliases)) kw.

(** ** The models [Torrent.Data] and [Torrent.Data.Info] *)

Module Data.

Module Info.

Record t : Type := Build {
  name : bytes;
  piece_length : Z;                 (* alias "piece length" *)
  source : option bytes;
  length : option Z;                (* v1, single file *)
  files : option (list Dict);       (* v1, several files *)
  pieces : option bytes;            (* v1 *)
  file_tree : option Dict;          (* alias "file tree", v2 *)
  meta_version : option Z;          (* alias "meta version", v2 *)
  extra : Kwargs
}.

Definition aliases : list str :=
  ["name"; "piece length"; "source"; "length"; "files"; "pieces";
   "file tree"; "meta version"].

Definition validate `{Collaborators} (v : KwValue) : option t :=
  match v with
  | StrDict kw =>
      let? name := required as_bytes kw "name" in
      let? piece_length := required as_int kw "piece length" in
      let? source := optional as_bytes kw "source" in
      let? length := optional as_int kw "length" in
      let? files := optional as_files kw "files" in
      let? pieces := optional as_bytes kw "pieces" in
      let? file_tree := optional as_File_tree kw "file tree" in
      let? meta_version := optional as_int kw "meta version" in
      Some (Build name piece_length source length files pieces
              file_tree meta_version (extra_fields aliases kw))
  | Raw _ => None
  end.

End Info.

Record t : Type := Build {
  announce : option bytes;
  announce_list : option (list (list bytes));   (* alias "announce-list" *)
  comment : option bytes;
  created_by : option bytes;                    (* alias "created by" *)
  creation_date : option Z;                     (* alias "creation date" *)
  info : Info.t;
  url_list : option Url_list;                   (* alias "url-list" *)
  piece_layers : option (list (bytes * bytes)); (* alias "piece layers", v2 *)
  extra : Kwargs
}.

Definition aliases : list str :=
  ["announce"; "announce-list"; "comment"; "created by"; "creation date";
   "info"; "url-list"; "piece layers"].

Definition validate `{Collaborators} (kw : Kwargs) : option t :=
  let? announce := optional as_bytes kw "announce" in
  let? announce_list := optional as_announce_list kw "announce-list" in
  let? comment := optional as_bytes kw "comment" in
  let? created_by := optional as_bytes kw "created by" in
  let? creation_date := optional as_int kw "creation date" in
  let? info := required Info.validate kw "info" in
  let? url_list := optional as_url_list kw "url-list" in
  let? piece_layers := optional as_piece_layers kw "piece layers" in
  Some (Build announce announce_list comment created_by creation_date
          info url_list piece_layers (extra_fields aliases kw)).

End Data.

(** ** The object [Torrent] *)

Inductive Torrent_format : Type := v1 | v2 | hybrid.

(** The dataclass [Torrent.Info]. *)
Record Info : Type := Build_Info {
  format : Torrent_format;
  hash_v1 : option HASH;
  hash_v2 : option HASH
}.

(** The attributes of an instance.  [_data] and [info] are [None] until
    [_refresh_data] and [_refresh_info] have assigned them. *)
Record Torrent : Type := Build_Torrent {
  _data_bytes : bytes;
  _data_dict : RawValue;
  _data : option Data.t;
  info : option Info
}.

Definition set_data_dict (self : Torrent) (value : RawValue) : Torrent :=
  Build_Torrent (_data_bytes self) value (_data self) (info self).

Definition set_data (self : Torrent) (d : Data.t) : Torrent :=
  Build_Torrent (_data_bytes self) (_data_dict self) (Some d) (info self).

Definition set_data_bytes (self : Torrent) (b : bytes) : Torrent :=
  Build_Torrent b (_data_dict self) (_data self) (info self).

Definition set_info (self : Torrent) (i : Info) : Torrent :=
  Build_Torrent (_data_bytes self) (_data_dict self) (_data self) (Some i).

(** Reading an attribute that was never assigned raises. *)
Definition attribute {A : Type} (a : option A) : result A :=
  match a with
  | Some x => Ok x
  | None => Raise AttributeError
  end.

(** The properties [data_bytes], [data_dict] and [data]; [self_info] reads
    the attribute [self.info]. *)
Definition data_bytes (self : Torrent) : bytes := _data_bytes self.
Definition data_dict (self : Torrent) : RawValue := _data_dict self.
Definition data (self : Torrent) : result Data.t := attribute (_data self).
Definition self_info (self : Torrent) : result Info := attribute (info self).

Definition _refresh_data `{Collaborators} (self : Torrent)
  : Torrent * result unit :=
  let validated :=
    do kw <- get_str_key_data_dict (_data_dict self);
    match Data.validate kw with
    | Some d => Ok d
    | None => Raise (Parse_error Pydantic_rejected)
    end in
  match validated with
  | Raise e => (self, Raise e)
  | Ok d =>
      let self := set_data self d in
      (set_data_bytes self (bencode (_data_dict self)), Ok tt)
  end.

Definition get_torrent_format (self : Torrent) : result Torrent_format :=
  do d <- attribute (_data self);
  match Data.Info.meta_version (Data.info d) with
  | None => Ok v1
  | Some 2 =>
      Ok (match Data.Info.files (Data.info d) with
          | None => v2
          | Some _ => hybrid
          end)
  | Some _ => Raise ValueError
  end.

(** [self._data_dict[b"info"]] *)
Definition raw_info (self : Torrent) : result RawValue :=
  match _data_dict self with
  | VDict d =>
      match dict_get String.eqb "info" d with
      | Some v => Ok v
      | None => Raise KeyError
      end
  | _ => Raise TypeError
  end.

Definition get_hash_v1 `{Collaborators} (self : Torrent) : result HASH :=
  do i <- raw_info self; Ok (sha1 (bencode i)).

Definition get_hash_v2 `{Collaborators} (self : Torrent) : result HASH :=
  do i <- raw_info self; Ok (sha256 (bencode i)).

Definition set_hash_v1 (self : Torrent) (i : Info) (h : HASH) : Torrent * Info :=
  let i := Build_Info (format i) (Some h) (hash_v2 i) in (set_info self i, i).

Definition set_hash_v2 (self : Torrent) (i : Info) (h : HASH) : Torrent * Info :=
  let i := Build_Info (format i) (hash_v1 i) (Some h) in (set_info self i, i).

Definition _refresh_info `{Collaborators} (self : Torrent)
  : Torrent * result unit :=
  match get_torrent_format self with
  | Raise e => (self, Raise e)
  | Ok _format =>
      let i := Build_Info _format None None in
      let self := set_info self i in
      match _format with
      | v1 =>
          match get_hash_v1 self with
          | Raise e => (self, Raise e)
          | Ok h => (fst (set_hash_v1 self i h), Ok tt)
          end
      | v2 =>
          match get_hash_v2 self with
          | Raise e => (self, Raise e)
          | Ok h => (fst (set_hash_v2 self i h), Ok tt)
          end
      | hybrid =>
          match get_hash_v1 self with
          | Raise e => (self, Raise e)
          | Ok h =>
              let '(self, i) := set_hash_v1 self i h in
              match get_hash_v2 self with
              | Raise e => (self, Raise e)
              | Ok h' => (fst (set_hash_v2 self i h'), Ok tt)
              end
          end
      end
  end.

Definition _refresh `{Collaborators} (self : Torrent) : Torrent * result unit :=
  match _refresh_data self with
  | (self, Raise e) => (self, Raise e)
  | (self, Ok _) => _refresh_info self
  end.

(** The setter of the property [data_dict]. *)
Definition data_dict_setter `{Collaborators} (self : Torrent) (value : RawValue)
  : Torrent * result unit :=
  _refresh (set_data_dict self value).

Definition is_None {A : Type} (o : option A) : bool :=
  match o with None => true | Some _ => false end.

(** The field combination [__init__] asks of each format; [false] raises
    [Parse_error("文件格式错误")]. *)
Definition format_fields_present (f : Torrent_format) (d : Data.t) : bool :=
  let i := Data.info d in
  match f with
  | v1 =>
      negb (is_None (Data.Info.pieces i)
            || (is_None (Data.Info.files i) && is_None (Data.Info.length i)))
  | v2 =>
      negb (is_None (Data.Info.file_tree i)
            || is_None (Data.Info.meta_version i)
            || is_None (Data.piece_layers d))
  | hybrid =>
      negb (is_None (Data.Info.pieces i)
            || (is_None (Data.Info.files i) && is_None (Data.Info.length i))
            || is_None (Data.Info.file_tree i)
            || is_None (Data.Info.meta_version i)
            || is_None (Data.piece_layers d))
  end.

(** [Torrent(file)] for [file: bytes].  The keys of a [RawValue] dict are
    byte strings by construction, so the second check of the source
    ([Key_not_bytes]) cannot fire here.  When [__init__] raises no instance
    is returned. *)
Definition __init__ `{Collaborators} (file : bytes) : result Torrent :=
  match bdecode file with
  | None => Raise BencodeDecodeError
  | Some decoded =>
      let self := Build_Torrent file decoded None None in
      if negb (is_dict (_data_dict self)) then Raise (Parse_error Not_a_dict)
      else
        match _refresh self with
        | (_, Raise e) => Raise e
        | (self, Ok _) =>
            let _e := Parse_error Bad_file_format in
            do i <- self_info self;
            do d <- data self;
            if negb (format_fields_present (format i) d) then Raise _e
            else if negb (is_None (Data.Info.files (Data.info d)))
                    && negb (is_None (Data.Info.length (Data.info d)))
            then Raise _e
            else Ok self
        end
  end.

(** ** Size aggregation *)

(** [_get_file_tree_xl(point)]; [point = None] is the call without
    argument, which starts from [self.data.info.file_tree]. *)
Definition _get_file_tree_xl (self : Torrent) (point : option Dict)
  : result (option Z) :=
  match point with
  | Some p => Ok (Some (point_xl (VDict p)))
  | None =>
      do d <- data self;
      match Data.Info.file_tree (Data.info d) with
      | None => Ok None
      | Some p => Ok (Some (point_xl (VDict p)))
      end
  end.

(** Python's [sum] over the generator, starting from 0. *)
Definition sum_int (l : list Z) : Z := fold_left Z.add l 0.

Definition _get_files_xl (self : Torrent) : result (option Z) :=
  do d <- data self;
  match Data.Info.files (Data.info d) with
  | Some files => Ok (Some (sum_int (map (fun file => point_xl (VDict file)) files)))
  | None => Ok (Data.Info.length (Data.info d))
  end.

(** Truth value of an [int | None]: [None] and [0] are false. *)
Definition truthy (x : option Z) : bool :=
  match x with
  | Some n => negb (n =? 0)
  | None => false
  end.

Definition get_xl (self : Torrent) : result Z :=
  do a <- _get_file_tree_xl self None;
  do xl <- (if truthy a then Ok a else _get_files_xl self);
  match xl with
  | Some n => Ok n
  | None => Raise AssertionError
  end.

(** ** Magnet builder *)

Definition hex_digit (upper : bool) (n : Z) : ascii :=
  if n <? 10 then ascii_of_N (Z.to_N (48 + n))
  else ascii_of_N (Z.to_N ((if upper then 55 else 87) + n)).

Definition hex_byte (upper : bool) (c : ascii) : str :=
  String (hex_digit upper (byte_val c / 16))
    (String (hex_digit upper (byte_val c mod 16)) EmptyString).

(** [HASH.hexdigest()]: two lower-case hexadecimal digits per byte. *)
Fixpoint hexdigest (h : HASH) : str :=
  match h with
  | EmptyString => EmptyString
  | String c r => String.append (hex_byte false c) (hexdigest r)
  end.

(** [urllib.parse.quote(bs)] on [bytes], with its default [safe="/"]:
    letters, digits, [_.-~] and [/] are kept, every other byte becomes
    [%XX] in upper-case hexadecimal. *)
Definition always_safe (c : ascii) : bool :=
  between 65 90 c || between 97 122 c || between 48 57 c
  || existsb (Ascii.eqb c) ["_"; "."; "-"; "~"]%char.

Definition quoter (safe : list ascii) (c : ascii) : str :=
  if always_safe c || existsb (Ascii.eqb c) safe then String c EmptyString
  else String "%" (hex_byte true c).

Fixpoint quote_from_bytes (safe : list ascii) (bs : bytes) : str :=
  match bs with
  | EmptyString => EmptyString
  | String c r => String.append (quoter safe c) (quote_from_bytes safe r)
  end.

Definition quote (bs : bytes) : str := quote_from_bytes ["/"%char] bs.

(** [f"{n}"] for an [int]. *)
Definition str_of_int (n : Z) : str := NilZero.string_of_int (Z.to_int n).

(** [sep.join(pieces)] *)
Fixpoint join (sep : str) (pieces : list str) : str :=
  match pieces with
  | [] => EmptyString
  | [p] => p
  | p :: rest => String.append p (String.append sep (join sep rest))
  end.

(** [self.data.announce_list or ([] if self.data.announce is None
    else [[self.data.announce]])] *)
Definition announce_tiers (d : Data.t) : list (list bytes) :=
  match Data.announce_list d with
  | Some (tier :: tiers) => tier :: tiers
  | _ =>
      match Data.announce d with
      | None => []
      | Some a => [[a]]
      end
  end.

Definition get_magnet (self : Torrent) (dn xl ws tr only_one_tr : bool)
  : result str :=
  do i <- self_info self;
  do xt <- match format i with
           | v1 =>
               do h <- match hash_v1 i with
                       | Some h => Ok h
                       | None => Raise AssertionError
                       end;
               Ok [String.append "xt=urn:btih:" (hexdigest h)]
           | v2 =>
               do h <- match hash_v2 i with
                       | Some h => Ok h
                       | None => Raise AssertionError
                       end;
               Ok [String.append "xt=urn:btmh:1220" (hexdigest h)]
           | hybrid =>
               match hash_v1 i, hash_v2 i with
               | Some h, Some h' =>
                   Ok [String.append "xt=urn:btih:" (hexdigest h);
                       String.append "xt=urn:btmh:1220" (hexdigest h')]
               | _, _ => Raise AssertionError
               end
           end;
  do p_dn <- (if dn then
                do d <- data self;
                Ok [String.append "dn=" (quote (Data.Info.name (Data.info d)))]
              else Ok []);
  do p_xl <- (if xl then
                do n <- get_xl self;
                Ok [String.append "xl=" (str_of_int n)]
              else Ok []);
  do p_ws <- (if ws then
                do d <- data self;
                match Data.url_list d with
                | None => Ok []
                | Some (Urls l) =>
                    Ok (map (fun url => String.append "ws=" (quote url)) l)
                | Some (Url b) => Ok [String.append "ws=" (quote b)]
                end
              else Ok []);
  do p_tr <- (if tr then
                do d <- data self;
                let announce_list := announce_tiers d in
                let announce_list :=
                  if only_one_tr then firstn 1 announce_list
                  else announce_list in
                Ok (map (fun url => String.append "tr=" (quote url))
                      (List.concat announce_list))
              else Ok []);
  Ok (String.append "magnet:?"
        (join "&" (xt ++ p_dn ++ p_xl ++ p_ws ++ p_tr))).

(** ** The specification's reading of a node's contribution

    "If the node contains a [length] entry with an integer value, add that
    length; otherwise recurse into every child value that is itself a map
    and sum their contributions."  Written from the specification, to be
    compared with [point_xl]. *)

Section Children.
Variable rec : RawValue -> Z.

Fixpoint children_sum (items : Dict) : Z :=
  match items with
  | [] => 0
  | (_, v) :: items' =>
      (if is_dict v then rec v else 0) + children_sum items'
  end.
End Children.

Fixpoint spec_contribution (node : RawValue) : Z :=
  match node with
  | VDict d =>
      match dict_get String.eqb "length" d with
      | Some (VInt n) => n
      | _ => children_sum spec_contribution d
      end
  | _ => 0
  end.

(** The field combinations of the specification's invariants 2 to 4. *)
Definition v1_fields (d : Data.t) : Prop :=
  Data.Info.pieces (Data.info d) <> None
  /\ (Data.Info.files (Data.info d) <> None
      \/ Data.Info.length (Data.info d) <> None).

Definition v2_fields (d : Data.t) : Prop :=
  Data.Info.file_tree (Data.info d) <> None
  /\ Data.Info.meta_version (Data.info d) <> None
  /\ Data.piece_layers d <> None.

Definition required_fields (f : Torrent_format) (d : Data.t) : Prop :=
  match f with
  | v1 => v1_fields d
  | v2 => v2_fields d
  | hybrid => v1_fields d /\ v2_fields d
  end.

(** The magnet scenario of the specification: format v1, the digest
    da39a3ee..., the name "example", no web seed and the single tracker
    http://tracker.example/announce. *)
Definition magnet_scenario (self : Torrent) : Prop :=
  exists d i h,
    _data self = Some d
    /\ info self = Some i
    /\ format i = v1
    /\ hash_v1 i = Some h
    /\ hexdigest h = "da39a3ee5e6b4b0d3255bfef95601890afd80709"
    /\ Data.Info.name (Data.info d) = "example"
    /\ Data.url_list d = None
    /\ announce_tiers d = [["http://tracker.example/announce"]].

(** The raw structure passes the schema of [Torrent.Data]. *)
Definition passes_schema `{Collaborators} (raw : RawValue) : Prop :=
  exists kw d, get_str_key_data_dict raw = Ok kw /\ Data.validate kw = Some d.

(** ** Reading the results back *)

(** [c in s] *)
Fixpoint contains (c : ascii) (s : str) : bool :=
  match s with
  | EmptyString => false
  | String a r => Ascii.eqb a c || contains c r
  end.

(** [s.split(c)] for a one-character separator. *)
Fixpoint split_on (c : ascii) (s : str) : list str :=
  match s with
  | EmptyString => [EmptyString]
  | String a r =>
      if Ascii.eqb a c then EmptyString :: split_on c r
      else
        match split_on c r with
        | piece :: pieces => String a piece :: pieces
        | [] => [String a EmptyString]
        end
  end.

(** One parameter of a magnet link: [key=value] with one of the five keys
    of [get_magnet], and no [&] inside. *)
Definition parameter (p : str) : Prop :=
  contains "&" p = false
  /\ exists key value,
      p = String.append key (String "=" value)
      /\ In key ["xt"; "dn"; "xl"; "ws"; "tr"].

(** [s[n:]] *)
Fixpoint drop_chars (n : nat) (s : str) : str :=
  match n, s with
  | S n', String _ r => drop_chars n' r
  | _, _ => s
  end.

(** The parameters of a link, [s[8:].split("&")], and those with a given
    key. *)
Definition link_parameters (s : str) : list str :=
  split_on "&" (drop_chars 8 s).

(** [s.startswith(p)] *)
Fixpoint starts_with (p s : str) : bool :=
  match p with
  | EmptyString => true
  | String a p' =>
      match s with
      | String b s' => Ascii.eqb a b && starts_with p' s'
      | EmptyString => false
      end
  end.

Definition parameters_with (key : str) (s : str) : list str :=
  filter (starts_with (String.append key "=")) (link_parameters s).

(** [self.data.url_list if isinstance(self.data.url_list, list)
    else [self.data.url_list]], and nothing without [url_list]. *)
Definition web_seeds (d : Data.t) : list bytes :=
  match Data.url_list d with
  | None => []
  | Some (Urls l) => l
  | Some (Url b) => [b]
  end.

(** The integer stored under [b"length"] in a file record, 0 without one. *)
Definition file_length (file : Dict) : Z :=
  match dict_get String.eqb "length" file with
  | Some (VInt n) => n
  | _ => 0
  end.

(** The [Torrent.Info] that [_refresh_info] leaves for a format and a raw
    [info] value. *)
Definition Info_of `{Collaborators} (f : Torrent_format) (raw : RawValue)
  : Info :=
  Build_Info f
    (match f with
     | v2 => None
     | _ => Some (sha1 (bencode raw))
     end)
    (match f with
     | v1 => None
     | _ => Some (sha256 (bencode raw))
     end).

(** ** A reference instance of the collaborators

    Used to run the model on concrete torrents. *)

Module Reference.

Definition is_digit : ascii -> bool := between 48 57.

Fixpoint take_digits (s : bytes) (acc : Z) : Z * bytes :=
  match s with
  | String c r =>
      if is_digit c then take_digits r (10 * acc + (byte_val c - 48))
      else (acc, s)
  | EmptyString => (acc, s)
  end.

Fixpoint split_at (n : nat) (s : bytes) : option (bytes * bytes) :=
  match n, s with
  | O, _ => Some (EmptyString, s)
  | S n', String c r =>
      let? (a, b) := split_at n' r in Some (String c a, b)
  | S _, EmptyString => None
  end.

Definition expect (c : ascii) (s : bytes) : option bytes :=
  match s with
  | String c' r => if Ascii.eqb c c' then Some r else None
  | EmptyString => None
  end.

Definition decode_int (s : bytes) : option (RawValue * bytes) :=
  match s with
  | String c r =>
      if Ascii.eqb c "-" then
        match r with
        | String c' _ =>
            if is_digit c' then
              let '(n, r') := take_digits r 0 in
              let? rest := expect "e" r' in Some (VInt (- n), rest)
            else None
        | EmptyString => None
        end
      else if is_digit c then
        let '(n, r') := take_digits s 0 in
        let? rest := expect "e" r' in Some (VInt n, rest)
      else None
  | EmptyString => None
  end.

Definition decode_bytes (s : bytes) : option (bytes * bytes) :=
  let '(n, r) := take_digits s 0 in
  let? r' := expect ":" r in split_at (Z.to_nat n) r'.

Fixpoint decode_value (fuel : nat) (s : bytes) : option (RawValue * bytes) :=
  match fuel with
  | O => None
  | S fuel' =>
      match s with
      | EmptyString => None
      | String c r =>
          if Ascii.eqb c "i" then decode_int r
          else if Ascii.eqb c "l" then
            let? (l, rest) := decode_list fuel' r in Some (VList l, rest)
          else if Ascii.eqb c "d" then
            let? (d, rest) := decode_dict fuel' r in Some (VDict d, rest)
          else if is_digit c then
            let? (b, rest) := decode_bytes s in Some (VBytes b, rest)
          else None
      end
  end
with decode_list (fuel : nat) (s : bytes) : option (list RawValue * bytes) :=
  match fuel with
  | O => None
  | S fuel' =>
      match s with
      | EmptyString => None
      | String c r =>
          if Ascii.eqb c "e" then Some ([], r)
          else
            let? (v, r1) := decode_value fuel' s in
            let? (l, r2) := decode_list fuel' r1 in
            Some (v :: l, r2)
      end
  end
with decode_dict (fuel : nat) (s : bytes) : option (Dict * bytes) :=
  match fuel with
  | O => None
  | S fuel' =>
      match s with
      | EmptyString => None
      | String c r =>
          if Ascii.eqb c "e" then Some ([], r)
          else if is_digit c then
            let? (k, r1) := decode_bytes s in
            let? (v, r2) := decode_value fuel' r1 in
            let? (d, r3) := decode_dict fuel' r2 in
            Some ((k, v) :: d, r3)
          else None
      end
  end.

Definition bdecode (s : bytes) : option RawValue :=
  match decode_value (S (String.length s)) s with
  | Some (v, EmptyString) => Some v
  | _ => None
  end.

Definition encode_bytes (b : bytes) : bytes :=
  String.append (NilZero.string_of_uint (Nat.to_uint (String.length b)))
    (String ":" b).

Fixpoint bencode (v : RawValue) : bytes :=
  match v with
  | VBytes b => encode_bytes b
  | VInt z => String.append "i" (String.append (str_of_int z) "e")
  | VList l =>
      String.append "l" (String.append (String.concat "" (map bencode l)) "e")
  | VDict d =>
      String.append "d"
        (String.append
           (String.concat ""
              (map (fun kv => String.append (encode_bytes (fst kv))
                                (bencode (snd kv))) d)) "e")
  end.

(** Reads a byte string made of decimal digits only. *)
Definition int_of_bytes (b : bytes) : option Z :=
  match b with
  | EmptyString => None
  | _ =>
      match take_digits b 0 with
      | (n, EmptyString) => Some n
      | _ => None
      end
  end.

(** *** hashlib's SHA-1 and SHA-256 (FIPS 180-4) on 32-bit words kept in [Z] *)

Definition w32 (x : Z) : Z := x mod 4294967296.

Definition rotl (n x : Z) : Z :=
  w32 (Z.lor (Z.shiftl x n) (Z.shiftr x (32 - n))).

Definition rotr (n x : Z) : Z := rotl (32 - n) x.

Definition not32 (x : Z) : Z := 4294967295 - x.

Definition be32 (x : Z) : list Z :=
  [x / 16777216 mod 256; x / 65536 mod 256; x / 256 mod 256; x mod 256].

Definition be64 (x : Z) : list Z := be32 (x / 4294967296) ++ be32 (w32 x).

Definition pad (m : list Z) : list Z :=
  let len := Z.of_nat (List.length m) in
  m ++ [128] ++ repeat 0 (Z.to_nat ((55 - len) mod 64)) ++ be64 (8 * len).

Fixpoint words (l : list Z) : list Z :=
  match l with
  | a :: b :: c :: d :: r => (((a * 256 + b) * 256 + c) * 256 + d) :: words r
  | _ => []
  end.

Fixpoint blocks (fuel : nat) (ws : list Z) : list (list Z) :=
  match fuel, ws with
  | S fuel', _ :: _ => firstn 16 ws :: blocks fuel' (skipn 16 ws)
  | _, _ => []
  end.

Definition message_blocks (m : bytes) : list (list Z) :=
  let ws := words (pad (map byte_val (list_ascii_of_string m))) in
  blocks (List.length ws) ws.

(** The message schedule, newest word first. *)
Fixpoint extend (next : list Z -> Z) (n : nat) (rev_ws : list Z) : list Z :=
  match n with
  | O => rev_ws
  | S n' => extend next n' (next rev_ws :: rev_ws)
  end.

Definition at_back (i : nat) (rev_ws : list Z) : Z := nth (i - 1) rev_ws 0.

Definition digest_of (state : list Z) : bytes :=
  string_of_list_ascii
    (map (fun b => ascii_of_N (Z.to_N b)) (List.concat (map be32 state))).

Definition sha1_next (rev_ws : list Z) : Z :=
  rotl 1 (Z.lxor (Z.lxor (at_back 3 rev_ws) (at_back 8 rev_ws))
            (Z.lxor (at_back 14 rev_ws) (at_back 16 rev_ws))).

Definition sha1_round (s : Z * Z * Z * Z * Z) (tw : nat * Z)
  : Z * Z * Z * Z * Z :=
  let '(a, b, c, d, e) := s in
  let '(t, w) := tw in
  let '(f, k) :=
    if (t <? 20)%nat then
      (Z.lor (Z.land b c) (Z.land (not32 b) d), 1518500249)
    else if (t <? 40)%nat then (Z.lxor (Z.lxor b c) d, 1859775393)
    else if (t <? 60)%nat then
      (Z.lor (Z.lor (Z.land b c) (Z.land b d)) (Z.land c d), 2400959708)
    else (Z.lxor (Z.lxor b c) d, 3395469782) in
  (w32 (rotl 5 a + f + e + k + w), a, rotl 30 b, c, d).

Definition sha1_block (h : Z * Z * Z * Z * Z) (block : list Z)
  : Z * Z * Z * Z * Z :=
  let ws := rev (extend sha1_next 64 (rev block)) in
  let '(a, b, c, d, e) :=
    fold_left sha1_round (combine (seq 0 80) ws) h in
  let '(h0, h1, h2, h3, h4) := h in
  (w32 (h0 + a), w32 (h1 + b), w32 (h2 + c), w32 (h3 + d), w32 (h4 + e)).

Definition sha1 (m : bytes) : bytes :=
  let '(h0, h1, h2, h3, h4) :=
    fold_left sha1_block (message_blocks m)
      (1732584193, 4023233417, 2562383102, 271733878, 3285377520) in
  digest_of [h0; h1; h2; h3; h4].

Definition sha256_k : list Z :=
  [1116352408; 1899447441; 3049323471; 3921009573;
   961987163; 1508970993; 2453635748; 2870763221;
   3624381080; 310598401; 607225278; 1426881987;
   1925078388; 2162078206; 2614888103; 3248222580;
   3835390401; 4022224774; 264347078; 604807628;
   770255983; 1249150122; 1555081692; 1996064986;
   2554220882; 2821834349; 2952996808; 3210313671;
   3336571891; 3584528711; 113926993; 338241895;
   666307205; 773529912; 1294757372; 1396182291;
   1695183700; 1986661051; 2177026350; 2456956037;
   2730485921; 2820302411; 3259730800; 3345764771;
   3516065817; 3600352804; 4094571909; 275423344;
   430227734; 506948616; 659060556; 883997877;
   958139571; 1322822218; 1537002063; 1747873779;
   1955562222; 2024104815; 2227730452; 2361852424;
   2428436474; 2756734187; 3204031479; 3329325298].

Definition sha256_next (rev_ws : list Z) : Z :=
  let s0 x := Z.lxor (Z.lxor (rotr 7 x) (rotr 18 x)) (Z.shiftr x 3) in
  let s1 x := Z.lxor (Z.lxor (rotr 17 x) (rotr 19 x)) (Z.shiftr x 10) in
  w32 (s1 (at_back 2 rev_ws) + at_back 7 rev_ws
       + s0 (at_back 15 rev_ws) + at_back 16 rev_ws).

Definition state8 : Type := Z * Z * Z * Z * Z * Z * Z * Z.

Definition sha256_round (s : state8) (kw : Z * Z) : state8 :=
  let '(a, b, c, d, e, f, g, h) := s in
  let '(k, w) := kw in
  let S1 := Z.lxor (Z.lxor (rotr 6 e) (rotr 11 e)) (rotr 25 e) in
  let ch := Z.lxor (Z.land e f) (Z.land (not32 e) g) in
  let t1 := h + S1 + ch + k + w in
  let S0 := Z.lxor (Z.lxor (rotr 2 a) (rotr 13 a)) (rotr 22 a) in
  let maj := Z.lxor (Z.lxor (Z.land a b) (Z.land a c)) (Z.land b c) in
  (w32 (t1 + S0 + maj), a, b, c, w32 (d + t1), e, f, g).

Definition sha256_block (hs : state8) (block : list Z) : state8 :=
  let ws := rev (extend sha256_next 48 (rev block)) in
  let '(a, b, c, d, e, f, g, h) :=
    fold_left sha256_round (combine sha256_k ws) hs in
  let '(h0, h1, h2, h3, h4, h5, h6, h7) := hs in
  (w32 (h0 + a), w32 (h1 + b), w32 (h2 + c), w32 (h3 + d),
   w32 (h4 + e), w32 (h5 + f), w32 (h6 + g), w32 (h7 + h)).

Definition sha256 (m : bytes) : bytes :=
  let '(h0, h1, h2, h3, h4, h5, h6, h7) :=
    fold_left sha256_block (message_blocks m)
      (1779033703, 3144134277, 1013904242, 2773480762,
       1359893119, 2600822924, 528734635, 1541459225) in
  digest_of [h0; h1; h2; h3; h4; h5; h6; h7].

End Reference.

Definition reference : Collaborators := {|
  bdecode := Reference.bdecode;
  bencode := Reference.bencode;
  sha1 := Reference.sha1;
  sha256 := Reference.sha256;
  int_of_bytes_lax := Reference.int_of_bytes
|}.

(** ** Concrete torrents *)

Module Examples.

Definition construct (file : bytes) : result Torrent :=
  @__init__ reference file.

(** The instance [Torrent(file)] when the construction succeeds. *)
Definition instance (file : bytes) : Torrent :=
  match construct file with
  | Ok t => t
  | Raise _ => Build_Torrent file (VList []) None None
  end.

(** v1, one file of 5 bytes, one tracker. *)
Definition v1_file : bytes :=
  "d8:announce31:http://tracker.example/announce7:comment5:first4:infod6:lengthi5e4:name7:example12:piece lengthi16384e6:pieces20:aaaaaaaaaaaaaaaaaaaa7:privatei1eee".

(** The same [info], another [comment]. *)
Definition v1_file_other_comment : bytes :=
  "d8:announce31:http://tracker.example/announce7:comment6:second4:infod6:lengthi5e4:name7:example12:piece lengthi16384e6:pieces20:aaaaaaaaaaaaaaaaaaaa7:privatei1eee".

(** v2, three files of 100, 250 and 0 bytes. *)
Definition v2_file : bytes :=
  "d4:infod9:file treed1:ad0:d6:lengthi100eee1:bd1:cd0:d6:lengthi250eee1:dd0:d6:lengthi0eeeee12:meta versioni2e4:name7:example12:piece lengthi16384ee12:piece layersdee".

(** v2, a single empty file. *)
Definition v2_empty_file : bytes :=
  "d4:infod9:file treed1:ad0:d6:lengthi0eeee12:meta versioni2e4:name7:example12:piece lengthi16384ee12:piece layersdee".

(** Hybrid: the v1 list holds 5 bytes, the v2 tree holds 7. *)
Definition hybrid_file : bytes :=
  "d4:infod9:file treed1:ad0:d6:lengthi7eeee5:filesld6:lengthi5e4:pathl1:aeee12:meta versioni2e4:name7:example12:piece lengthi16384e6:pieces20:aaaaaaaaaaaaaaaaaaaae12:piece layersdee".

(** Hybrid: the v1 list holds 5 bytes, the v2 tree holds an empty file. *)
Definition hybrid_file_empty_tree : bytes :=
  "d4:infod9:file treed1:ad0:d6:lengthi0eeee5:filesld6:lengthi5e4:pathl1:aeee12:meta versioni2e4:name7:example12:piece lengthi16384e6:pieces20:aaaaaaaaaaaaaaaaaaaae12:piece layersdee".

(** [files] and [length] together. *)
Definition files_and_length : bytes :=
  "d4:infod5:filesld6:lengthi5e4:pathl1:aeee6:lengthi5e4:name7:example12:piece lengthi16384e6:pieces20:aaaaaaaaaaaaaaaaaaaaee".

(** [meta version] 3. *)
Definition meta_version_3 : bytes :=
  "d4:infod9:file treed1:ad0:d6:lengthi7eeee12:meta versioni3e4:name7:example12:piece lengthi16384ee12:piece layersdee".

(** v1 without [pieces]. *)
Definition v1_without_pieces : bytes :=
  "d4:infod6:lengthi5e4:name7:example12:piece lengthi16384eee".

(** A node that is neither a [File] nor a [File_tree]: an integer
    [length] next to a child dict. *)
Definition mixed_node : Dict :=
  [("length", VInt 5); ("x", VDict [("length", VInt 7)])].

(** The torrent state of the magnet scenario: format v1, the digest
    da39a3ee..., name "example", one tracker, no web seed. *)
Definition scenario_digest : HASH := Reference.sha1 "".

Definition scenario : Torrent :=
  Build_Torrent "" (VDict [])
    (Some (Data.Build None
             (Some [["http://tracker.example/announce"]]) None None None
             (Data.Info.Build "example" 16384 None (Some 5) None
                (Some "aaaaaaaaaaaaaaaaaaaa") None None [])
             None None []))
    (Some (Build_Info v1 (Some scenario_digest) None)).

(** A top-level key that is not UTF-8 (the single byte 0xFF). *)
Definition bad_key_file : bytes :=
  String.append "d1:" (String "255"%char "i1ee").

(** An [info] key that is not UTF-8. *)
Definition bad_info_key_file : bytes :=
  String.append "d4:infod1:" (String "255"%char "i1eee").



(** v1 with three files of 100, 250 and 0 bytes and two tracker tiers. *)
Definition v1_files_file : bytes :=
  "d13:announce-listll8:http://ael8:http://b8:http://cee4:infod5:filesld6:lengthi100e4:pathl1:aeed6:lengthi250e4:pathl1:beed6:lengthi0e4:pathl1:ceee4:name9:a&b=c d/e12:piece lengthi16384e6:pieces20:aaaaaaaaaaaaaaaaaaaae8:url-list10:http://w/xe".

(** [hybrid_file] with a [comment]. *)
Definition hybrid_file_with_comment : bytes :=
  "d7:comment1:x4:infod9:file treed1:ad0:d6:lengthi7eeee5:filesld6:lengthi5e4:pathl1:aeee12:meta versioni2e4:name7:example12:piece lengthi16384e6:pieces20:aaaaaaaaaaaaaaaaaaaae12:piece layersdee".

(** The decoded [v1_without_pieces]. *)
Definition without_pieces : RawValue :=
  VDict [("info", VDict [("length", VInt 5); ("name", VBytes "example");
                         ("piece length", VInt 16384)])].

End Examples.

(** * Properties *)

(** ** Size of a node *)

Section Node_size.

Variable rec : RawValue -> Z.

Lemma items_xl_acc (items : Dict) (xl : Z) :
  items_xl rec items xl = xl + items_xl rec items 0.
Proof.
  revert xl; induction items as [|[k v] items IH]; intros xl; simpl.
  - lia.
  - destruct v; try apply IH.
    + destruct (String.eqb k "length").
      * rewrite (IH (xl + z)), (IH z); lia.
      * apply IH.
    + rewrite (IH (xl + rec _)), (IH (rec _)); lia.
Qed.

Lemma children_sum_File (items : Dict) :
  forallb (fun kv => is_File_value (snd kv)) items = true ->
  children_sum rec items = 0.
Proof.
  induction items as [|[k v] items IH]; simpl; [reflexivity|].
  intros H; apply andb_prop in H as [Hv Hrest].
  rewrite (IH Hrest); destruct v; simpl in *; try reflexivity; discriminate.
Qed.

(** Without a key [b"length"] a [File] contributes nothing. *)
Lemma items_xl_File_no_length (items : Dict) :
  forallb (fun kv => is_File_value (snd kv)) items = true ->
  existsb (fun kv => String.eqb (fst kv) "length") items = false ->
  items_xl rec items 0 = 0.
Proof.
  induction items as [|[k v] items IH]; simpl; [reflexivity|].
  intros H Hk; apply andb_prop in H as [Hv Hrest].
  apply orb_false_elim in Hk as [Hk Hks].
  destruct v; simpl in Hv; try discriminate; try (apply IH; assumption).
  rewrite Hk; apply IH; assumption.
Qed.

Lemma dict_get_absent (items : Dict) (k : bytes) :
  existsb (fun kv => String.eqb (fst kv) k) items = false ->
  dict_get String.eqb k items = None.
Proof.
  induction items as [|[k' v] items IH]; simpl; [reflexivity|].
  intros H; apply orb_false_elim in H as [Hk Hks].
  rewrite Hk; apply IH; assumption.
Qed.

Lemma items_xl_File (items : Dict) :
  forallb (fun kv => is_File_value (snd kv)) items = true ->
  keys_distinct items = true ->
  items_xl rec items 0 =
    match dict_get String.eqb "length" items with
    | Some (VInt n) => n
    | _ => 0
    end.
Proof.
  induction items as [|[k v] items IH]; [reflexivity|].
  intros H Hd; simpl in H; apply andb_prop in H as [Hv Hrest].
  change (keys_distinct ((k, v) :: items))
    with (negb (existsb (fun kv => String.eqb (fst kv) k) items)
          && keys_distinct items) in Hd.
  apply andb_prop in Hd as [Hfresh Hd].
  apply negb_true_iff in Hfresh.
  simpl; destruct (String.eqb k "length") eqn:Hk.
  - apply String.eqb_eq in Hk; subst k.
    destruct v; simpl in Hv; try discriminate;
      try (apply items_xl_File_no_length; assumption).
    rewrite items_xl_acc, (items_xl_File_no_length _ Hrest Hfresh); lia.
  - destruct v; simpl in Hv; try discriminate; apply IH; assumption.
Qed.

Lemma items_xl_File_tree (items : Dict) :
  forallb (fun kv => is_dict (snd kv)) items = true ->
  items_xl rec items 0 = children_sum rec items.
Proof.
  induction items as [|[k v] items IH]; simpl; [reflexivity|].
  intros H; apply andb_prop in H as [Hv Hrest].
  destruct v; simpl in Hv; try discriminate.
  rewrite items_xl_acc, (IH Hrest); simpl; lia.
Qed.

Lemma dict_get_dicts (items : Dict) (k : bytes) :
  forallb (fun kv => is_dict (snd kv)) items = true ->
  match dict_get String.eqb k items with
  | Some (VInt _) => False
  | _ => True
  end.
Proof.
  induction items as [|[k' v] items IH]; simpl; [trivial|].
  intros H; apply andb_prop in H as [Hv Hrest].
  destruct (String.eqb k' k); [|apply IH; assumption].
  destruct v; simpl in Hv; try discriminate; trivial.
Qed.

End Node_size.

Lemma children_sum_ext (f g : RawValue -> Z) (items : Dict) :
  Forall (fun kv => f (snd kv) = g (snd kv)) items ->
  children_sum f items = children_sum g items.
Proof.
  induction 1 as [|[k v] items Hv _ IH]; simpl; [reflexivity|].
  simpl in Hv; rewrite Hv, IH; reflexivity.
Qed.

Lemma File_or_File_tree_is_dict (v : RawValue) :
  is_File_tree v || is_File v = true -> is_dict v = true.
Proof. destruct v; simpl; auto. Qed.

(** On a node of type [File_tree | File] the loop of the source computes
    the contribution the specification describes. *)
Lemma point_xl_spec_contribution (node : RawValue) :
  dict_ok node = true ->
  is_File_tree node || is_File node = true ->
  point_xl node = spec_contribution node.
Proof.
  induction node as [b|z|l _|d IH] using RawValue_nested_ind;
    try reflexivity.
  intros Hok Hty; simpl in Hok; apply andb_prop in Hok as [Hkeys Hok].
  destruct (is_File (VDict d)) eqn:HF.
  - simpl in HF; simpl.
    rewrite (items_xl_File _ _ HF Hkeys), (children_sum_File _ _ HF).
    destruct (dict_get String.eqb "length" d) as [[]|]; reflexivity.
  - rewrite orb_false_r in Hty; simpl in Hty.
    assert (Hdicts : forallb (fun kv => is_dict (snd kv)) d = true).
    { rewrite forallb_forall in *; intros kv Hin.
      apply File_or_File_tree_is_dict, Hty, Hin. }
    simpl; rewrite (items_xl_File_tree _ _ Hdicts).
    pose proof (dict_get_dicts d "length" Hdicts) as Hget.
    transitivity (children_sum spec_contribution d).
    + apply children_sum_ext.
      rewrite Forall_forall in *; rewrite forallb_forall in *.
      intros kv Hin; apply IH; auto.
    + destruct (dict_get String.eqb "length" d) as [[]|];
        try reflexivity; contradiction.
Qed.

(** C4. The classifier reads only the validated [info] record: no
    [meta_version] gives v1, [meta_version] 2 without [files] gives v2, and
    [meta_version] 2 with [files] gives hybrid. *)
Theorem get_torrent_format_classifies (self : Torrent) (d : Data.t)
  (Hdata : _data self = Some d) :
  (Data.Info.meta_version (Data.info d) = None ->
   get_torrent_format self = Ok v1)
  /\ (Data.Info.meta_version (Data.info d) = Some 2 ->
      Data.Info.files (Data.info d) = None ->
      get_torrent_format self = Ok v2)
  /\ (Data.Info.meta_version (Data.info d) = Some 2 ->
      Data.Info.files (Data.info d) <> None ->
      get_torrent_format self = Ok hybrid)
  /\ (forall self' d',
        _data self' = Some d' -> Data.info d' = Data.info d ->
        get_torrent_format self' = get_torrent_format self).
Proof.
  unfold get_torrent_format; rewrite Hdata; simpl.
  repeat split.
  - intros ->; reflexivity.
  - intros -> ->; reflexivity.
  - intros -> Hfiles.
    destruct (Data.Info.files (Data.info d)); [reflexivity|contradiction].
  - intros self' d' Hd' Hinfo; rewrite Hd'; simpl; rewrite Hinfo; reflexivity.
Qed.

Lemma get_torrent_format_classifies_witness :
  get_torrent_format (Examples.instance Examples.v1_file) = Ok v1
  /\ get_torrent_format (Examples.instance Examples.v2_file) = Ok v2
  /\ get_torrent_format (Examples.instance Examples.hybrid_file) = Ok hybrid.
Proof.
  split; [|split].
  - destruct (_data (Examples.instance Examples.v1_file)) as [d|] eqn:Hd;
      [|vm_compute in Hd; discriminate].
    apply (proj1 (get_torrent_format_classifies _ d Hd)).
    vm_compute in Hd; injection Hd as <-; reflexivity.
  - destruct (_data (Examples.instance Examples.v2_file)) as [d|] eqn:Hd;
      [|vm_compute in Hd; discriminate].
    apply (proj1 (proj2 (get_torrent_format_classifies _ d Hd)));
      vm_compute in Hd; injection Hd as <-; reflexivity.
  - destruct (_data (Examples.instance Examples.hybrid_file)) as [d|] eqn:Hd;
      [|vm_compute in Hd; discriminate].
    apply (proj1 (proj2 (proj2 (get_torrent_format_classifies _ d Hd))));
      vm_compute in Hd; injection Hd as <-; [reflexivity|discriminate].
Defined.

(** ** Construction *)

Lemma is_None_false {A : Type} (o : option A) : is_None o = false <-> o <> None.
Proof. destruct o; simpl; split; congruence. Qed.

Lemma format_fields_present_required (f : Torrent_format) (d : Data.t) :
  format_fields_present f d = true <-> required_fields f d.
Proof.
  unfold format_fields_present, required_fields, v1_fields, v2_fields.
  destruct f;
    destruct (Data.Info.pieces (Data.info d)),
      (Data.Info.files (Data.info d)),
      (Data.Info.length (Data.info d)),
      (Data.Info.file_tree (Data.info d)),
      (Data.Info.meta_version (Data.info d)),
      (Data.piece_layers d); simpl; intuition congruence.
Qed.

Section Construction.

Context `{Collaborators}.

Lemma _refresh_data_inv (self self' : Torrent) (r : result unit) :
  _refresh_data self = (self', r) ->
  match r with
  | Ok _ =>
      exists kw d,
        get_str_key_data_dict (_data_dict self) = Ok kw
        /\ Data.validate kw = Some d
        /\ self' = set_data_bytes (set_data self d) (bencode (_data_dict self))
  | Raise _ => self' = self
  end.
Proof.
  unfold _refresh_data.
  destruct (get_str_key_data_dict (_data_dict self)) as [kw|e]; simpl.
  - destruct (Data.validate kw) as [d|] eqn:Hval; intros [= <- <-];
      [exists kw, d; auto | reflexivity].
  - intros [= <- <-]; reflexivity.
Qed.

(** What a successful [_refresh_info] leaves in [self.info]. *)
Lemma _refresh_info_inv (self self' : Torrent) (u : unit) :
  _refresh_info self = (self', Ok u) ->
  exists i,
    info self' = Some i
    /\ get_torrent_format self = Ok (format i)
    /\ _data self' = _data self
    /\ _data_dict self' = _data_dict self
    /\ _data_bytes self' = _data_bytes self
    /\ (format i <> v2 ->
        exists raw, raw_info self = Ok raw
                    /\ hash_v1 i = Some (sha1 (bencode raw)))
    /\ (format i <> v1 ->
        exists raw, raw_info self = Ok raw
                    /\ hash_v2 i = Some (sha256 (bencode raw))).
Proof.
  unfold _refresh_info, get_hash_v1, get_hash_v2, raw_info.
  destruct (get_torrent_format self) as [f|e]; [|discriminate].
  destruct f; simpl;
    (destruct (_data_dict self) as [b|z|l|dd] eqn:Hdd; simpl;
     try discriminate);
    (destruct (dict_get String.eqb "info" dd) as [raw|]; simpl;
     try discriminate);
    intros [= <-]; eexists; simpl; rewrite ?Hdd;
    do 5 (split; [reflexivity|]);
    (split; intros Hf; simpl in Hf; try congruence;
     eexists; split; reflexivity).
Qed.

(** Everything a returned instance went through. *)
Lemma __init___inv (file : bytes) (t : Torrent) :
  __init__ file = Ok t ->
  exists decoded kw d i,
    bdecode file = Some (VDict decoded)
    /\ _data_dict t = VDict decoded
    /\ _data_bytes t = bencode (VDict decoded)
    /\ get_str_key_data_dict (VDict decoded) = Ok kw
    /\ Data.validate kw = Some d
    /\ _data t = Some d
    /\ info t = Some i
    /\ get_torrent_format t = Ok (format i)
    /\ (format i <> v2 ->
        exists raw, dict_get String.eqb "info" decoded = Some raw
                    /\ hash_v1 i = Some (sha1 (bencode raw)))
    /\ (format i <> v1 ->
        exists raw, dict_get String.eqb "info" decoded = Some raw
                    /\ hash_v2 i = Some (sha256 (bencode raw)))
    /\ format_fields_present (format i) d = true
    /\ (is_None (Data.Info.files (Data.info d))
        || is_None (Data.Info.length (Data.info d))) = true.
Proof.
  unfold __init__.
  destruct (bdecode file) as [decoded|]; [|discriminate].
  destruct decoded as [b|z|l|decoded]; try discriminate.
  cbn [_data_dict is_dict negb].
  unfold _refresh.
  destruct (_refresh_data _) as [self1 [u|e]] eqn:Hdata; [|discriminate].
  apply _refresh_data_inv in Hdata as (kw & d & Hkw & Hval & ->).
  destruct (_refresh_info _) as [self2 [u'|e]] eqn:Hinfo; [|discriminate].
  apply _refresh_info_inv in Hinfo
    as (i & Hi & Hfmt & Hd & Hdict & Hbytes & Hh1 & Hh2).
  simpl in Hd, Hdict, Hbytes, Hkw.
  unfold self_info, data; rewrite Hi, Hd; simpl.
  destruct (format_fields_present (format i) d) eqn:Hfields;
    [|discriminate].
  rewrite <- negb_orb.
  destruct (is_None (Data.Info.files (Data.info d))
            || is_None (Data.Info.length (Data.info d))) eqn:Hboth;
    [|discriminate].
  intros [= <-]; exists decoded, kw, d, i.
  split; [reflexivity|].
  split; [exact Hdict|].
  split; [exact Hbytes|].
  split; [exact Hkw|].
  split; [exact Hval|].
  split; [exact Hd|].
  split; [exact Hi|].
  split; [unfold get_torrent_format in *; rewrite Hd; exact Hfmt|].
  unfold raw_info in Hh1, Hh2; simpl in Hh1, Hh2.
  destruct (dict_get String.eqb "info" decoded) as [raw|].
  - split; [intros Hf; destruct (Hh1 Hf) as (raw' & [= <-] & Hh); eauto|].
    split; [intros Hf; destruct (Hh2 Hf) as (raw' & [= <-] & Hh); eauto|].
    split; assumption.
  - split; [intros Hf; destruct (Hh1 Hf) as (raw' & Hraw & _); discriminate|].
    split; [intros Hf; destruct (Hh2 Hf) as (raw' & Hraw & _); discriminate|].
    split; assumption.
Qed.

End Construction.

(** ** From the decoded dict to the validated models *)

Ltac invert_obind H :=
  repeat match type of H with
         | obind ?o _ = Some _ =>
             let E := fresh "E" in
             destruct o eqn:E; [cbn [obind] in H | discriminate H]
         end.

Lemma decode_inv (k : bytes) (k' : str) : decode k = Ok k' -> k' = k.
Proof. unfold decode; destruct (utf8_valid k); congruence. Qed.

Section Str_key.

Variable rec : RawValue -> result Kwargs.

(** A value that is not converted is handed on under the same key. *)
Lemma str_key_items_raw (items : Dict) (kw : Kwargs) (k : bytes)
  (v : RawValue) :
  str_key_items rec items = Ok kw ->
  dict_get String.eqb k items = Some v ->
  is_dict v && String.eqb k "info" = false ->
  dict_get String.eqb k kw = Some (Raw v).
Proof.
  revert kw; induction items as [|[k0 v0] items IH]; intros kw;
    [discriminate|].
  cbn [str_key_items dict_get].
  destruct (decode k0) as [k0'|] eqn:Hk0; [|discriminate].
  apply decode_inv in Hk0; subst k0'; cbn [bind].
  destruct (String.eqb k0 k) eqn:Hk.
  - apply String.eqb_eq in Hk; subst k0.
    intros Hkw [= ->] Hraw; rewrite Hraw in Hkw; cbn [bind] in Hkw.
    destruct (str_key_items rec items); [|discriminate].
    injection Hkw as <-; cbn [dict_get]; rewrite String.eqb_refl; reflexivity.
  - intros Hkw Hget Hraw.
    destruct (if is_dict v0 && String.eqb k0 "info" then _ else _);
      [|discriminate].
    cbn [bind] in Hkw.
    destruct (str_key_items rec items) as [r|]; [|discriminate].
    injection Hkw as <-; cbn [dict_get]; rewrite Hk; apply (IH r); auto.
Qed.

(** The value under [b"info"], when it is a dict, is converted. *)
Lemma str_key_items_info (items : Dict) (kw : Kwargs) (i : Dict) :
  str_key_items rec items = Ok kw ->
  dict_get String.eqb "info" items = Some (VDict i) ->
  exists kwi,
    rec (VDict i) = Ok kwi
    /\ dict_get String.eqb "info" kw = Some (StrDict kwi).
Proof.
  revert kw; induction items as [|[k0 v0] items IH]; intros kw;
    [discriminate|].
  cbn [str_key_items dict_get].
  destruct (decode k0) as [k0'|] eqn:Hk0; [|discriminate].
  apply decode_inv in Hk0; subst k0'; cbn [bind].
  destruct (String.eqb k0 "info") eqn:Hk.
  - intros Hkw [= ->]; cbn [is_dict andb] in Hkw.
    destruct (rec (VDict i)) as [kwi|]; [|discriminate].
    cbn [bind] in Hkw.
    destruct (str_key_items rec items); [|discriminate].
    injection Hkw as <-; exists kwi; cbn [dict_get].
    apply String.eqb_eq in Hk; subst k0; auto.
  - intros Hkw Hget; rewrite andb_false_r in Hkw; cbn [bind] in Hkw.
    destruct (str_key_items rec items) as [r|]; [|discriminate].
    injection Hkw as <-; cbn [dict_get]; rewrite Hk; apply (IH r); auto.
Qed.

(** Every key of the keyword dict is a key of the decoded dict. *)
Lemma str_key_items_key (items : Dict) (kw : Kwargs) (k : str)
  (v' : KwValue) :
  str_key_items rec items = Ok kw ->
  dict_get String.eqb k kw = Some v' ->
  exists v, dict_get String.eqb k items = Some v.
Proof.
  revert kw; induction items as [|[k0 v0] items IH]; intros kw.
  - intros [= <-]; discriminate.
  - cbn [str_key_items dict_get].
    destruct (decode k0) as [k0'|] eqn:Hk0; [|discriminate].
    apply decode_inv in Hk0; subst k0'; cbn [bind].
    destruct (if is_dict v0 && String.eqb k0 "info" then _ else _);
      [|discriminate].
    cbn [bind].
    destruct (str_key_items rec items) as [r|]; [|discriminate].
    intros [= <-]; cbn [dict_get].
    destruct (String.eqb k0 k); eauto.
Qed.

End Str_key.

Lemma optional_present {A : Type} (validate : KwValue -> option A)
  (kw : Kwargs) (alias : str) (o : option A) (v : KwValue) :
  optional validate kw alias = Some o ->
  dict_get String.eqb alias kw = Some v ->
  exists a, o = Some a /\ validate v = Some a.
Proof.
  unfold optional; intros Ho Hv; rewrite Hv in Ho.
  destruct (validate v) as [a|]; [|discriminate].
  injection Ho as <-; eauto.
Qed.

Section Validation.

Context `{Collaborators}.

Lemma Data_validate_info (kw : Kwargs) (d : Data.t) :
  Data.validate kw = Some d ->
  required Data.Info.validate kw "info" = Some (Data.info d).
Proof.
  unfold Data.validate; intros Hd; invert_obind Hd.
  injection Hd as <-; reflexivity.
Qed.

Lemma Info_validate_fields (v : KwValue) (i : Data.Info.t) :
  Data.Info.validate v = Some i ->
  exists kw,
    v = StrDict kw
    /\ optional as_int kw "length" = Some (Data.Info.length i)
    /\ optional as_files kw "files" = Some (Data.Info.files i)
    /\ optional as_File_tree kw "file tree" = Some (Data.Info.file_tree i)
    /\ optional as_int kw "meta version" = Some (Data.Info.meta_version i).
Proof.
  destruct v as [r|kw]; [discriminate|].
  unfold Data.Info.validate; intros Hi; invert_obind Hi.
  injection Hi as <-; exists kw; auto.
Qed.

(** The typed [info] is the validation of the raw [info] dict. *)
Lemma validated_info (decoded : Dict) (kw : Kwargs) (d : Data.t) :
  get_str_key_data_dict (VDict decoded) = Ok kw ->
  Data.validate kw = Some d ->
  exists v kwi,
    dict_get String.eqb "info" decoded = Some v
    /\ dict_get String.eqb "info" kw = Some (StrDict kwi)
    /\ Data.Info.validate (StrDict kwi) = Some (Data.info d)
    /\ (forall i, v = VDict i -> get_str_key_data_dict (VDict i) = Ok kwi).
Proof.
  intros Hkw Hd; apply Data_validate_info in Hd.
  unfold required in Hd.
  destruct (dict_get String.eqb "info" kw) as [v'|] eqn:Hv';
    [|discriminate].
  cbn [obind] in Hd.
  destruct (Info_validate_fields _ _ Hd) as (kwi & -> & _).
  destruct (str_key_items_key _ _ _ _ _ Hkw Hv') as (v & Hv).
  exists v, kwi; repeat split; auto.
  intros i ->.
  destruct (str_key_items_info _ _ _ _ Hkw Hv) as (kwi' & Hrec & Hget).
  rewrite Hget in Hv'; injection Hv' as ->; exact Hrec.
Qed.

End Validation.

(** A validated [file_tree] has the type [File_tree]. *)
Lemma validated_file_tree `{Collaborators} (kw : Kwargs) (d : Data.t)
  (tree : Dict) :
  Data.validate kw = Some d ->
  Data.Info.file_tree (Data.info d) = Some tree ->
  is_File_tree (VDict tree) = true.
Proof.
  intros Hd Htree; apply Data_validate_info in Hd.
  unfold required in Hd.
  destruct (dict_get String.eqb "info" kw) as [v|]; [|discriminate].
  cbn [obind] in Hd.
  destruct (Info_validate_fields _ _ Hd) as (kwi & _ & _ & _ & Hft & _).
  rewrite Htree in Hft; unfold optional in Hft.
  destruct (dict_get String.eqb "file tree" kwi) as [[[b|z|l|t]|kt]|];
    try discriminate.
  cbn [as_File_tree obind] in Hft.
  destruct (is_File_tree (VDict t)) eqn:Hty; [|discriminate].
  injection Hft as <-; exact Hty.
Qed.

(** C9. The v2 path returns [None] exactly when [file_tree] is absent.
    Otherwise it returns the size of the validated tree, and on every node
    of type [File_tree | File] (a Python dict, so without repeated keys)
    that size is the contribution the specification describes: the integer
    [length] of the node when it has one, and otherwise the sum over the
    children that are maps. *)
Theorem _get_file_tree_xl_contribution `{Collaborators} (self : Torrent)
  (kw : Kwargs) (d : Data.t)
  (Hdata : _data self = Some d) (Hvalid : Data.validate kw = Some d) :
  (_get_file_tree_xl self None = Ok None
   <-> Data.Info.file_tree (Data.info d) = None)
  /\ (forall tree,
        Data.Info.file_tree (Data.info d) = Some tree ->
        dict_ok (VDict tree) = true ->
        _get_file_tree_xl self None
        = Ok (Some (spec_contribution (VDict tree))))
  /\ (forall node,
        dict_ok (VDict node) = true ->
        is_File_tree (VDict node) || is_File (VDict node) = true ->
        _get_file_tree_xl self (Some node)
        = Ok (Some (spec_contribution (VDict node)))).
Proof.
  unfold _get_file_tree_xl, data; rewrite Hdata; cbn [attribute bind].
  split; [split|split].
  - destruct (Data.Info.file_tree (Data.info d)); [discriminate|reflexivity].
  - intros ->; reflexivity.
  - intros tree Htree Hok; rewrite Htree.
    rewrite <- (point_xl_spec_contribution (VDict tree) Hok); [reflexivity|].
    rewrite (validated_file_tree kw d tree Hvalid Htree); reflexivity.
  - intros node Hok Hty.
    rewrite <- (point_xl_spec_contribution (VDict node) Hok Hty); reflexivity.
Qed.

(** The type of the node matters: on a dict that holds an integer [length]
    next to a child dict, which is neither a [File] nor a [File_tree], the
    loop adds both. *)
Remark point_xl_mixed_node :
  is_File_tree (VDict Examples.mixed_node) || is_File (VDict Examples.mixed_node)
  = false
  /\ point_xl (VDict Examples.mixed_node) = 12
  /\ spec_contribution (VDict Examples.mixed_node) = 5.
Proof. repeat split. Qed.

Lemma get_torrent_format_data (self self' : Torrent) :
  _data self = _data self' ->
  get_torrent_format self = get_torrent_format self'.
Proof. unfold get_torrent_format; intros ->; reflexivity. Qed.

Section Construction_outcome.

Context `{Collaborators}.

(** The outcome of [__init__] on an input that passed the schema. *)
Lemma __init___validated (file : bytes) (decoded : Dict) (kw : Kwargs)
  (d : Data.t) :
  bdecode file = Some (VDict decoded) ->
  get_str_key_data_dict (VDict decoded) = Ok kw ->
  Data.validate kw = Some d ->
  match get_torrent_format (Build_Torrent file (VDict decoded) (Some d) None)
  with
  | Raise e => __init__ file = Raise e
  | Ok f =>
      if format_fields_present f d
         && (is_None (Data.Info.files (Data.info d))
             || is_None (Data.Info.length (Data.info d)))
      then exists t, __init__ file = Ok t
      else __init__ file = Raise (Parse_error Bad_file_format)
  end.
Proof.
  intros Hfile Hkw Hd.
  destruct (validated_info _ _ _ Hkw Hd) as (raw & _ & Hraw & _).
  unfold __init__; rewrite Hfile; cbn [_data_dict is_dict negb].
  unfold _refresh, _refresh_data; cbn [_data_dict].
  rewrite Hkw; cbn [bind]; rewrite Hd.
  unfold _refresh_info.
  cbn [set_data set_data_bytes _data_dict _data_bytes _data info].
  change (get_torrent_format
            (Build_Torrent (bencode (VDict decoded)) (VDict decoded)
               (Some d) None))
    with (get_torrent_format
            (Build_Torrent file (VDict decoded) (Some d) None)).
  destruct (get_torrent_format _) as [f|e]; [|reflexivity].
  unfold get_hash_v1, get_hash_v2, raw_info; cbn; rewrite Hraw.
  destruct f; cbn; unfold self_info, data, format_fields_present; cbn;
    destruct (Data.Info.pieces (Data.info d)),
      (Data.Info.files (Data.info d)),
      (Data.Info.length (Data.info d)),
      (Data.Info.file_tree (Data.info d)),
      (Data.Info.meta_version (Data.info d)),
      (Data.piece_layers d); cbn; eauto.
Qed.

End Construction_outcome.

Lemma get_torrent_format_unknown (self : Torrent) (d : Data.t) (z : Z) :
  _data self = Some d ->
  Data.Info.meta_version (Data.info d) = Some z ->
  z <> 2 ->
  get_torrent_format self = Raise ValueError.
Proof.
  unfold get_torrent_format; intros Hd Hmeta Hz.
  rewrite Hd; simpl; rewrite Hmeta.
  destruct z as [|p|p]; try reflexivity.
  destruct p as [p|p|]; try reflexivity.
  destruct p; try reflexivity; congruence.
Qed.

Lemma get_torrent_format_raises (self : Torrent) (d : Data.t) (e : exn) :
  _data self = Some d ->
  get_torrent_format self = Raise e ->
  e = ValueError.
Proof.
  unfold get_torrent_format; intros ->; simpl.
  destruct (Data.Info.meta_version (Data.info d)) as [[|[[]|[]|]|]|];
    congruence.
Qed.

Section Construction_properties.

Context `{Collaborators}.

(** C5. An instance is returned only with the fields its format
    requires: [pieces] and one of [files], [length] for v1; [file_tree],
    [meta_version] and the top-level [piece_layers] for v2; all of them
    for hybrid.  An input that passes the schema and is classified, but
    lacks them, raises [Parse_error]. *)
Theorem __init___required_fields (file : bytes) :
  (forall t,
      __init__ file = Ok t ->
      exists d i,
        _data t = Some d /\ info t = Some i
        /\ get_torrent_format t = Ok (format i)
        /\ required_fields (format i) d)
  /\ (forall decoded kw d f,
        bdecode file = Some (VDict decoded) ->
        get_str_key_data_dict (VDict decoded) = Ok kw ->
        Data.validate kw = Some d ->
        get_torrent_format
          (Build_Torrent file (VDict decoded) (Some d) None) = Ok f ->
        ~ required_fields f d ->
        __init__ file = Raise (Parse_error Bad_file_format)).
Proof.
  split.
  - intros t Ht.
    destruct (__init___inv _ _ Ht)
      as (decoded & kw & d & i & _ & _ & _ & _ & _ & Hd & Hi & Hf & _ & _
          & Hfields & _).
    exists d, i; repeat split; auto.
    apply format_fields_present_required, Hfields.
  - intros decoded kw d f Hfile Hkw Hd Hf Hmissing.
    pose proof (__init___validated _ _ _ _ Hfile Hkw Hd) as Hinit.
    rewrite Hf in Hinit.
    destruct (format_fields_present f d) eqn:Hfields; [|exact Hinit].
    apply format_fields_present_required in Hfields; contradiction.
Qed.

(** C6. An input whose [info] holds both [files] and [length] is
    rejected, whatever its format; no returned instance has both. *)
Theorem files_and_length_rejected (file : bytes) :
  (forall decoded i x y,
      bdecode file = Some (VDict decoded) ->
      dict_get String.eqb "info" decoded = Some (VDict i) ->
      dict_get String.eqb "files" i = Some x ->
      dict_get String.eqb "length" i = Some y ->
      exists e, __init__ file = Raise e)
  /\ (forall decoded kw d,
        bdecode file = Some (VDict decoded) ->
        get_str_key_data_dict (VDict decoded) = Ok kw ->
        Data.validate kw = Some d ->
        Data.Info.files (Data.info d) <> None ->
        Data.Info.length (Data.info d) <> None ->
        __init__ file = Raise (Parse_error Bad_file_format)
        \/ __init__ file = Raise ValueError)
  /\ (forall t d,
        __init__ file = Ok t -> _data t = Some d ->
        ~ (Data.Info.files (Data.info d) <> None
           /\ Data.Info.length (Data.info d) <> None)).
Proof.
  assert (Hnone : forall t d,
             __init__ file = Ok t -> _data t = Some d ->
             ~ (Data.Info.files (Data.info d) <> None
                /\ Data.Info.length (Data.info d) <> None)).
  { intros t d Ht Hd [Hfiles Hlength].
    destruct (__init___inv _ _ Ht)
      as (_ & _ & d' & _ & _ & _ & _ & _ & _ & Hd' & _ & _ & _ & _ & _
          & Hboth).
    rewrite Hd in Hd'; injection Hd' as <-.
    apply is_None_false in Hfiles, Hlength.
    rewrite Hfiles, Hlength in Hboth; discriminate. }
  split; [|split; [|exact Hnone]].
  - intros decoded i x y Hfile Hinfo Hx Hy.
    destruct (__init__ file) as [t|e] eqn:Ht; [exfalso|eauto].
    destruct (__init___inv _ _ Ht)
      as (decoded' & kw & d & _ & Hfile' & _ & _ & Hkw & Hval & Hd & _).
    rewrite Hfile in Hfile'; injection Hfile' as <-.
    destruct (validated_info _ _ _ Hkw Hval) as (v & kwi & Hv & _ & Hi & Hkwi).
    rewrite Hinfo in Hv; injection Hv as <-.
    specialize (Hkwi i eq_refl).
    destruct (Info_validate_fields _ _ Hi)
      as (kwi' & [= <-] & Hlength & Hfiles & _).
    pose proof (str_key_items_raw _ _ _ _ _ Hkwi Hx
                  (andb_false_r _)) as Hx'.
    pose proof (str_key_items_raw _ _ _ _ _ Hkwi Hy
                  (andb_false_r _)) as Hy'.
    destruct (optional_present _ _ _ _ _ Hfiles Hx') as (a & Ha & _).
    destruct (optional_present _ _ _ _ _ Hlength Hy') as (b & Hb & _).
    apply (Hnone t d eq_refl Hd); rewrite Ha, Hb; split; discriminate.
  - intros decoded kw d Hfile Hkw Hd Hfiles Hlength.
    pose proof (__init___validated _ _ _ _ Hfile Hkw Hd) as Hinit.
    destruct (get_torrent_format _) as [f|e] eqn:Hf.
    + apply is_None_false in Hfiles, Hlength.
      rewrite Hfiles, Hlength, andb_false_r in Hinit; auto.
    + apply (get_torrent_format_raises _ d) in Hf; [subst e; auto|reflexivity].
Qed.

(** C7. A [meta_version] other than 2 makes the construction fail: the
    classifier raises, it never falls back to v1 or to another format. *)
Theorem unknown_meta_version_rejected (file : bytes) (z : Z) (Hz : z <> 2) :
  (forall decoded i,
      bdecode file = Some (VDict decoded) ->
      dict_get String.eqb "info" decoded = Some (VDict i) ->
      dict_get String.eqb "meta version" i = Some (VInt z) ->
      exists e, __init__ file = Raise e)
  /\ (forall decoded kw d,
        bdecode file = Some (VDict decoded) ->
        get_str_key_data_dict (VDict decoded) = Ok kw ->
        Data.validate kw = Some d ->
        Data.Info.meta_version (Data.info d) = Some z ->
        __init__ file = Raise ValueError
        /\ forall self, _data self = Some d ->
                        get_torrent_format self = Raise ValueError).
Proof.
  split.
  - intros decoded i Hfile Hinfo Hz'.
    destruct (__init__ file) as [t|e] eqn:Ht; [exfalso|eauto].
    destruct (__init___inv _ _ Ht)
      as (decoded' & kw & d & fi & Hfile' & _ & _ & Hkw & Hval & Hd & _
          & Hfmt & _).
    rewrite Hfile in Hfile'; injection Hfile' as <-.
    destruct (validated_info _ _ _ Hkw Hval) as (v & kwi & Hv & _ & Hi & Hkwi).
    rewrite Hinfo in Hv; injection Hv as <-.
    specialize (Hkwi i eq_refl).
    destruct (Info_validate_fields _ _ Hi)
      as (kwi' & [= <-] & _ & _ & _ & Hmeta).
    pose proof (str_key_items_raw _ _ _ _ _ Hkwi Hz' eq_refl) as Hz''.
    destruct (optional_present _ _ _ _ _ Hmeta Hz'') as (a & Ha & Hint).
    simpl in Hint; injection Hint as <-.
    rewrite (get_torrent_format_unknown t d z Hd Ha Hz) in Hfmt.
    discriminate.
  - intros decoded kw d Hfile Hkw Hd Hmeta; split.
    + pose proof (__init___validated _ _ _ _ Hfile Hkw Hd) as Hinit.
      rewrite (get_torrent_format_unknown
                 (Build_Torrent file (VDict decoded) (Some d) None) d z
                 eq_refl Hmeta Hz) in Hinit.
      exact Hinit.
    + intros self Hself.
      apply (get_torrent_format_unknown self d z Hself Hmeta Hz).
Qed.

(** C8. For a v1 or hybrid instance, [hash_v1] is the SHA-1 digest (20
    bytes) of the re-encoding of the raw value stored under [b"info"] in
    the decoded dict, extra fields included; two inputs with the same raw
    [info] get the same [hash_v1], whatever else differs. *)
Theorem hash_v1_sha1_of_raw_info
  (Hsha1 : forall m, String.length (sha1 m) = 20%nat)
  (file : bytes) (t : Torrent) (i : Info) :
  __init__ file = Ok t ->
  info t = Some i ->
  format i = v1 \/ format i = hybrid ->
  (exists decoded raw,
      bdecode file = Some (VDict decoded)
      /\ dict_get String.eqb "info" decoded = Some raw
      /\ hash_v1 i = Some (sha1 (bencode raw))
      /\ String.length (sha1 (bencode raw)) = 20%nat)
  /\ (forall file' t' i' decoded decoded',
        __init__ file' = Ok t' ->
        info t' = Some i' ->
        format i' = v1 \/ format i' = hybrid ->
        bdecode file = Some (VDict decoded) ->
        bdecode file' = Some (VDict decoded') ->
        dict_get String.eqb "info" decoded'
        = dict_get String.eqb "info" decoded ->
        hash_v1 i' = hash_v1 i).
Proof.
  intros Ht Hi Hf.
  assert (Hhash : forall file t i,
             __init__ file = Ok t -> info t = Some i ->
             format i = v1 \/ format i = hybrid ->
             exists decoded raw,
               bdecode file = Some (VDict decoded)
               /\ dict_get String.eqb "info" decoded = Some raw
               /\ hash_v1 i = Some (sha1 (bencode raw))).
  { clear; intros file t i Ht Hi Hf.
    destruct (__init___inv _ _ Ht)
      as (decoded & _ & _ & i' & Hfile & _ & _ & _ & _ & _ & Hi' & _ & Hh1
          & _).
    rewrite Hi in Hi'; injection Hi' as <-.
    destruct Hh1 as (raw & Hraw & Hh); [destruct Hf; congruence|].
    exists decoded, raw; auto. }
  split.
  - destruct (Hhash _ _ _ Ht Hi Hf) as (decoded & raw & ? & ? & ?).
    exists decoded, raw; auto.
  - intros file' t' i' decoded decoded' Ht' Hi' Hf' Hfile Hfile' Hsame.
    destruct (Hhash _ _ _ Ht Hi Hf) as (dec & raw & Hdec & Hraw & ->).
    destruct (Hhash _ _ _ Ht' Hi' Hf') as (dec' & raw' & Hdec' & Hraw' & ->).
    congruence.
Qed.

End Construction_properties.

(** ** The reference instance on concrete inputs *)

Lemma Reference_sha1_length (m : bytes) :
  String.length (Reference.sha1 m) = 20%nat.
Proof.
  unfold Reference.sha1.
  destruct (fold_left Reference.sha1_block _ _) as [[[[h0 h1] h2] h3] h4].
  reflexivity.
Qed.

Lemma _get_file_tree_xl_contribution_witness :
  _get_file_tree_xl (Examples.instance Examples.v2_file) None = Ok (Some 350)
  /\ _get_file_tree_xl (Examples.instance Examples.v2_file)
       (Some [("b", VDict [("c", VDict [("", VDict [("length", VInt 250)])])]);
              ("d", VDict [("", VDict [("length", VInt 0)])])])
     = Ok (Some 250)
  /\ _get_file_tree_xl (Examples.instance Examples.v2_file)
       (Some [("length", VInt 5); ("path", VList [VBytes "a"])])
     = Ok (Some 5).
Proof.
  destruct (@__init___inv reference Examples.v2_file
              (Examples.instance Examples.v2_file))
    as (decoded & kw & d & i & _ & _ & _ & _ & Hvalid & Hdata & _);
    [vm_compute; reflexivity|].
  destruct (@_get_file_tree_xl_contribution reference _ kw d Hdata Hvalid)
    as (_ & Htree & Hnode).
  split; [|split; apply Hnode; reflexivity].
  vm_compute in Hdata; injection Hdata as <-.
  rewrite (Htree _ eq_refl eq_refl); reflexivity.
Defined.

Lemma __init___required_fields_witness :
  (exists d i,
      _data (Examples.instance Examples.hybrid_file) = Some d
      /\ info (Examples.instance Examples.hybrid_file) = Some i
      /\ get_torrent_format (Examples.instance Examples.hybrid_file)
         = Ok (format i)
      /\ required_fields (format i) d)
  /\ Examples.construct Examples.v1_without_pieces
     = Raise (Parse_error Bad_file_format).
Proof.
  split.
  - apply (proj1 (@__init___required_fields reference Examples.hybrid_file)).
    vm_compute; reflexivity.
  - eapply (proj2 (@__init___required_fields reference
                     Examples.v1_without_pieces));
      [reflexivity | reflexivity | reflexivity | reflexivity |].
    intros [Hpieces _]; exact (Hpieces eq_refl).
Defined.

Lemma files_and_length_rejected_witness :
  (exists e, Examples.construct Examples.files_and_length = Raise e)
  /\ (Examples.construct Examples.files_and_length
      = Raise (Parse_error Bad_file_format)
      \/ Examples.construct Examples.files_and_length = Raise ValueError)
  /\ (forall d,
        _data (Examples.instance Examples.hybrid_file) = Some d ->
        ~ (Data.Info.files (Data.info d) <> None
           /\ Data.Info.length (Data.info d) <> None)).
Proof.
  split; [|split].
  - eapply (proj1 (@files_and_length_rejected reference
                     Examples.files_and_length)); reflexivity.
  - eapply (proj1 (proj2 (@files_and_length_rejected reference
                            Examples.files_and_length)));
      [reflexivity | reflexivity | reflexivity | |]; discriminate.
  - intros d.
    apply (proj2 (proj2 (@files_and_length_rejected reference
                           Examples.hybrid_file))).
    vm_compute; reflexivity.
Defined.

Lemma unknown_meta_version_rejected_witness :
  3 <> 2
  /\ (exists e, Examples.construct Examples.meta_version_3 = Raise e)
  /\ Examples.construct Examples.meta_version_3 = Raise ValueError.
Proof.
  assert (H32 : 3 <> 2) by discriminate.
  split; [exact H32|split].
  - eapply (proj1 (@unknown_meta_version_rejected reference
                     Examples.meta_version_3 3 H32)); reflexivity.
  - eapply (proj2 (@unknown_meta_version_rejected reference
                     Examples.meta_version_3 3 H32)); reflexivity.
Defined.

Lemma hash_v1_sha1_of_raw_info_witness :
  (exists i,
      info (Examples.instance Examples.v1_file) = Some i
      /\ (exists raw,
             hash_v1 i = Some (Reference.sha1 (Reference.bencode raw))
             /\ String.length (Reference.sha1 (Reference.bencode raw))
                = 20%nat)
      /\ (forall i',
             info (Examples.instance Examples.v1_file_other_comment) = Some i'
             -> hash_v1 i' = hash_v1 i)).
Proof.
  destruct (info (Examples.instance Examples.v1_file)) as [i|] eqn:Hi;
    [|vm_compute in Hi; discriminate].
  assert (Hf : format i = v1 \/ format i = hybrid).
  { vm_compute in Hi; injection Hi as <-; left; reflexivity. }
  assert (Ht : @__init__ reference Examples.v1_file
               = Ok (Examples.instance Examples.v1_file))
    by (vm_compute; reflexivity).
  destruct (@hash_v1_sha1_of_raw_info reference Reference_sha1_length
              Examples.v1_file _ i Ht Hi Hf)
    as [(decoded & raw & _ & _ & Hhash & Hlen) Hsame].
  exists i; split; [reflexivity|split].
  - exists raw; split; [exact Hhash|exact Hlen].
  - intros i' Hi'.
    eapply (Hsame Examples.v1_file_other_comment _ i');
      [ vm_compute; reflexivity | exact Hi'
      | vm_compute in Hi'; injection Hi' as <-; left; reflexivity
      | reflexivity | reflexivity | reflexivity ].
Defined.

(** ** Exact length *)

(** [get_xl] reports the v2 total whenever that total is not zero. *)
Lemma get_xl_nonzero_tree (self : Torrent) (n : Z) :
  _get_file_tree_xl self None = Ok (Some n) ->
  n <> 0 ->
  get_xl self = Ok n.
Proof.
  unfold get_xl; intros -> Hn; simpl.
  apply Z.eqb_neq in Hn; rewrite Hn; reflexivity.
Qed.

(** With no v2 total, or a v2 total of zero, [get_xl] reports what
    [_get_files_xl] returns, and raises when that is [None]. *)
Lemma get_xl_falsy_tree (self : Torrent) (a : option Z) :
  _get_file_tree_xl self None = Ok a ->
  a = None \/ a = Some 0 ->
  get_xl self = do xl <- _get_files_xl self;
                match xl with
                | Some n => Ok n
                | None => Raise AssertionError
                end.
Proof.
  unfold get_xl; intros -> [-> | ->]; reflexivity.
Qed.

(** On a returned instance [get_xl] returns an integer, except for a v2
    instance whose tree sums to 0 and that has no [length]: there the
    assertion fails. *)
Lemma get_xl_constructed `{Collaborators} (file : bytes) (t : Torrent) :
  __init__ file = Ok t ->
  (exists n, get_xl t = Ok n)
  \/ (get_torrent_format t = Ok v2
      /\ _get_file_tree_xl t None = Ok (Some 0)
      /\ _get_files_xl t = Ok None
      /\ get_xl t = Raise AssertionError).
Proof.
  intros Ht.
  destruct (__init___inv _ _ Ht)
    as (decoded & kw & d & i & _ & _ & _ & _ & _ & Hd & _ & Hf & _ & _
        & Hfields & _).
  unfold get_xl, _get_file_tree_xl, _get_files_xl, data.
  rewrite Hd; cbn [attribute bind].
  unfold format_fields_present in Hfields.
  destruct (format i) eqn:Hfmt;
    destruct (Data.Info.pieces (Data.info d)),
      (Data.Info.files (Data.info d)),
      (Data.Info.length (Data.info d)),
      (Data.Info.file_tree (Data.info d)) as [tree|],
      (Data.Info.meta_version (Data.info d)),
      (Data.piece_layers d);
    cbn in Hfields; try discriminate; cbn [bind truthy];
    try (destruct (point_xl (VDict tree) =? 0) eqn:Hn; cbn [negb bind]);
    try (left; eexists; reflexivity);
    right; apply Z.eqb_eq in Hn; rewrite Hn; auto.
Qed.

(** C1, at a hybrid torrent whose v2 tree sums to 0 while its v1 list sums
    to 5: [get_xl] and the [xl] of the magnet link report 5, the v1
    total. *)
Theorem get_xl_hybrid_zero_tree :
  Examples.construct Examples.hybrid_file_empty_tree
  = Ok (Examples.instance Examples.hybrid_file_empty_tree)
  /\ get_torrent_format (Examples.instance Examples.hybrid_file_empty_tree)
     = Ok hybrid
  /\ _get_file_tree_xl (Examples.instance Examples.hybrid_file_empty_tree) None
     = Ok (Some 0)
  /\ _get_files_xl (Examples.instance Examples.hybrid_file_empty_tree)
     = Ok (Some 5)
  /\ get_xl (Examples.instance Examples.hybrid_file_empty_tree) = Ok 5
  /\ get_magnet (Examples.instance Examples.hybrid_file_empty_tree)
       false true false false false
     = Ok "magnet:?xt=urn:btih:ce569882d60eb6b001f603dcf86985ebc7de7bbb&xt=urn:btmh:122061ebf15effcd37cdb95de37e650817b710431c1c3b1d8bcd92142b4aa7fd6c5d&xl=5".
Proof. vm_compute; repeat split. Qed.

(** C2, at a v2 torrent holding one empty file: the construction succeeds
    and [get_xl] raises [AssertionError]. *)
Theorem get_xl_v2_empty_file :
  Examples.construct Examples.v2_empty_file
  = Ok (Examples.instance Examples.v2_empty_file)
  /\ get_torrent_format (Examples.instance Examples.v2_empty_file) = Ok v2
  /\ _get_file_tree_xl (Examples.instance Examples.v2_empty_file) None
     = Ok (Some 0)
  /\ _get_files_xl (Examples.instance Examples.v2_empty_file) = Ok None
  /\ get_xl (Examples.instance Examples.v2_empty_file) = Raise AssertionError.
Proof. vm_compute; repeat split. Qed.

(** ** Magnet link *)

(** C3 as stated fails: in the scenario the tracker comes out with its
    slashes unescaped. *)
Lemma get_magnet_scenario_counterexample :
  magnet_scenario Examples.scenario
  /\ get_magnet Examples.scenario true false true true false
     <> Ok "magnet:?xt=urn:btih:da39a3ee5e6b4b0d3255bfef95601890afd80709&dn=example&tr=http%3A%2F%2Ftracker.example%2Fannounce".
Proof.
  split.
  - do 3 eexists; repeat split; reflexivity.
  - vm_compute; discriminate.
Qed.

(** C3, amended. In the scenario, with [dn] and [tr] enabled and [xl]
    disabled, the magnet link is
    "magnet:?xt=urn:btih:da39a3ee5e6b4b0d3255bfef95601890afd80709&dn=example&tr=http%3A//tracker.example/announce":
    [quote] escapes the colon of the tracker and keeps its slashes. *)
Theorem get_magnet_scenario (self : Torrent) (ws only_one_tr : bool) :
  magnet_scenario self ->
  get_magnet self true false ws true only_one_tr
  = Ok "magnet:?xt=urn:btih:da39a3ee5e6b4b0d3255bfef95601890afd80709&dn=example&tr=http%3A//tracker.example/announce".
Proof.
  intros (d & i & h & Hd & Hi & Hf & Hh & Hhex & Hname & Hws & Htr).
  unfold get_magnet, self_info, data.
  rewrite Hi, Hd; cbn [attribute bind]; rewrite Hf, Hh; cbn [bind].
  rewrite Hhex, Hname, Hws, Htr.
  destruct ws, only_one_tr; reflexivity.
Qed.

Lemma get_magnet_scenario_witness :
  magnet_scenario Examples.scenario
  /\ get_magnet Examples.scenario true false true true false
     = Ok "magnet:?xt=urn:btih:da39a3ee5e6b4b0d3255bfef95601890afd80709&dn=example&tr=http%3A//tracker.example/announce".
Proof.
  assert (Hs : magnet_scenario Examples.scenario)
    by (do 3 eexists; repeat split; reflexivity).
  split; [exact Hs|].
  apply (get_magnet_scenario Examples.scenario true false Hs).
Defined.

(** ** Assigning [data_dict] *)

Section Setter.

Context `{Collaborators}.

Lemma passes_schema_raw_info (self : Torrent) :
  passes_schema (_data_dict self) -> exists raw, raw_info self = Ok raw.
Proof.
  intros (kw & d & Hkw & Hd); unfold raw_info.
  destruct (_data_dict self) as [b|z|l|decoded]; try discriminate.
  destruct (validated_info _ _ _ Hkw Hd) as (v & _ & -> & _); eauto.
Qed.

(** Once the schema is passed, [_refresh_info] can only fail in the
    classifier, before it assigns [self.info]. *)
Lemma _refresh_info_raise (self self' : Torrent) (d : Data.t) (e : exn) :
  passes_schema (_data_dict self) ->
  _data self = Some d ->
  _refresh_info self = (self', Raise e) ->
  self' = self /\ e = ValueError.
Proof.
  intros Hschema Hd.
  destruct (passes_schema_raw_info _ Hschema) as (raw & Hraw).
  unfold _refresh_info, get_hash_v1, get_hash_v2.
  destruct (get_torrent_format self) as [f|e'] eqn:Hf.
  - assert (Hraw' : forall i, raw_info (set_info self i) = Ok raw)
      by (intros i; exact Hraw).
    destruct f; rewrite Hraw'; cbn; try discriminate.
    change (raw_info (set_info (set_info self (Build_Info hybrid None None))
                        (Build_Info hybrid (Some (sha1 (bencode raw))) None)))
      with (raw_info self).
    rewrite Hraw; discriminate.
  - intros [= <- <-]; split; [reflexivity|].
    apply (get_torrent_format_raises self d e' Hd Hf).
Qed.

(** C10, amended. [__init__] is atomic: the instance it returns stores
    the decoded input, which passed the schema, the classification and
    the field checks, and a failing [__init__] returns no instance.  An
    instance is not read-only: assigning [data_dict] stores the new raw
    structure and then re-validates it; when that fails the error
    propagates and the instance keeps the new raw structure, with nothing
    else changed when the schema rejects it, and with the new typed data
    and bytes but the previous [info] when the classifier rejects it.
    When it succeeds the new raw structure has passed the schema and the
    classification. *)
Theorem data_dict_setter_outcome :
  (forall file t,
      __init__ file = Ok t ->
      exists decoded d i,
        bdecode file = Some (VDict decoded)
        /\ _data_dict t = VDict decoded
        /\ passes_schema (_data_dict t)
        /\ _data t = Some d /\ info t = Some i
        /\ get_torrent_format t = Ok (format i)
        /\ required_fields (format i) d
        /\ ~ (Data.Info.files (Data.info d) <> None
              /\ Data.Info.length (Data.info d) <> None))
  /\ (forall self value self' e,
        data_dict_setter self value = (self', Raise e) ->
        _data_dict self' = value
        /\ info self' = info self
        /\ ((~ passes_schema value /\ self' = set_data_dict self value)
            \/ (exists kw d,
                   get_str_key_data_dict value = Ok kw
                   /\ Data.validate kw = Some d
                   /\ self' = set_data_bytes
                                (set_data (set_data_dict self value) d)
                                (bencode value)
                   /\ e = ValueError)))
  /\ (forall self value self' u,
        data_dict_setter self value = (self', Ok u) ->
        _data_dict self' = value
        /\ passes_schema value
        /\ exists d i,
            _data self' = Some d /\ info self' = Some i
            /\ get_torrent_format self' = Ok (format i)).
Proof.
  split; [|split].
  - intros file t Ht.
    destruct (__init___inv _ _ Ht)
      as (decoded & kw & d & i & Hfile & Hdict & _ & Hkw & Hval & Hd & Hi
          & Hf & _ & _ & Hfields & Hboth).
    exists decoded, d, i; repeat split; auto.
    + rewrite Hdict; exists kw, d; auto.
    + apply format_fields_present_required, Hfields.
    + intros [Hfiles Hlength]; apply is_None_false in Hfiles, Hlength.
      rewrite Hfiles, Hlength in Hboth; discriminate.
  - intros self value self' e; unfold data_dict_setter, _refresh.
    destruct (_refresh_data (set_data_dict self value)) as [s1 [u|e1]]
      eqn:Hdata.
    + apply _refresh_data_inv in Hdata as (kw & d & Hkw & Hd & ->).
      cbn [_data_dict set_data_dict] in *.
      intros Hinfo.
      apply (_refresh_info_raise _ _ d) in Hinfo as [-> ->];
        [|exists kw, d; auto|reflexivity].
      repeat split; right; exists kw, d; auto.
    + intros [= <- <-].
      unfold _refresh_data in Hdata; cbn [_data_dict set_data_dict] in Hdata.
      destruct (get_str_key_data_dict value) as [kw|e2] eqn:Hkw;
        cbn [bind] in Hdata.
      * destruct (Data.validate kw) as [d|] eqn:Hd; [discriminate|].
        injection Hdata as <- _.
        repeat split; left; split; [|reflexivity].
        intros (kw' & d' & Hkw' & Hd'); congruence.
      * injection Hdata as <- _.
        repeat split; left; split; [|reflexivity].
        intros (kw' & d' & Hkw' & Hd'); congruence.
  - intros self value self' u; unfold data_dict_setter, _refresh.
    destruct (_refresh_data (set_data_dict self value)) as [s1 [u1|e1]]
      eqn:Hdata; [|discriminate].
    apply _refresh_data_inv in Hdata as (kw & d & Hkw & Hd & ->).
    cbn [_data_dict set_data_dict] in *.
    intros Hinfo.
    apply _refresh_info_inv in Hinfo
      as (i & Hi & Hf & Hd' & Hdict & _).
    split; [exact Hdict|].
    split; [exists kw, d; auto|].
    exists d, i; split; [exact Hd'|split; [exact Hi|]].
    rewrite <- Hf; apply get_torrent_format_data; exact Hd'.
Qed.

End Setter.

(** C10 as stated fails: after a failed assignment to [data_dict] the
    instance built from a valid input stores a raw structure the schema
    rejects, next to the typed data of the previous one. *)
Lemma data_dict_setter_counterexample :
  Examples.construct Examples.v1_file = Ok (Examples.instance Examples.v1_file)
  /\ @data_dict_setter reference (Examples.instance Examples.v1_file) (VDict [])
     = (set_data_dict (Examples.instance Examples.v1_file) (VDict []),
        Raise (Parse_error Pydantic_rejected))
  /\ data_dict (set_data_dict (Examples.instance Examples.v1_file) (VDict []))
     <> data_dict (Examples.instance Examples.v1_file)
  /\ ~ @passes_schema reference
         (data_dict
            (set_data_dict (Examples.instance Examples.v1_file) (VDict [])))
  /\ data (set_data_dict (Examples.instance Examples.v1_file) (VDict []))
     = data (Examples.instance Examples.v1_file).
Proof.
  split; [vm_compute; reflexivity|].
  split; [vm_compute; reflexivity|].
  split; [vm_compute; discriminate|].
  split; [|reflexivity].
  intros (kw & d & Hkw & Hd).
  vm_compute in Hkw; injection Hkw as <-; discriminate.
Qed.

Lemma data_dict_setter_outcome_witness :
  (exists decoded,
      _data_dict (Examples.instance Examples.v1_file) = VDict decoded
      /\ @passes_schema reference (VDict decoded))
  /\ _data_dict
       (fst (@data_dict_setter reference (Examples.instance Examples.v1_file)
               (VDict [])))
     = VDict [].
Proof.
  split.
  - destruct (proj1 (@data_dict_setter_outcome reference)
                Examples.v1_file (Examples.instance Examples.v1_file))
      as (decoded & d & i & _ & Hdict & Hschema & _);
      [vm_compute; reflexivity|].
    exists decoded; split; [exact Hdict|].
    rewrite <- Hdict; exact Hschema.
  - eapply (proj1 (proj2 (@data_dict_setter_outcome reference))
              (Examples.instance Examples.v1_file) (VDict [])).
    vm_compute; reflexivity.
Defined.

(** * Further properties *)

(** ** Key conversion *)

Section Str_key_more.

Variable rec : RawValue -> result Kwargs.

Lemma str_key_items_raises (items : Dict) (e : exn) :
  Forall (fun kv => forall e', rec (snd kv) = Raise e' ->
                               is_dict (snd kv) = true ->
                               e' = UnicodeDecodeError) items ->
  str_key_items rec items = Raise e ->
  e = UnicodeDecodeError.
Proof.
  induction 1 as [|[k v] items Hv _ IH]; [discriminate|].
  cbn [str_key_items]; unfold decode.
  destruct (utf8_valid k); cbn [bind]; [|congruence].
  destruct (is_dict v && String.eqb k "info") eqn:Hinfo.
  - apply andb_prop in Hinfo as [Hdict _].
    destruct (rec v) as [d'|e'] eqn:Hrec; cbn [bind].
    + destruct (str_key_items rec items); cbn [bind]; [discriminate|].
      intros [= <-]; apply IH; reflexivity.
    + intros [= <-]; apply (Hv e' Hrec Hdict).
  - cbn [bind].
    destruct (str_key_items rec items); cbn [bind]; [discriminate|].
    intros [= <-]; apply IH; reflexivity.
Qed.

Lemma str_key_items_keys (items : Dict) (kw : Kwargs) :
  str_key_items rec items = Ok kw -> map fst kw = map fst items.
Proof.
  revert kw; induction items as [|[k v] items IH]; intros kw.
  - intros [= <-]; reflexivity.
  - cbn [str_key_items].
    destruct (decode k) as [k'|] eqn:Hk; [|discriminate].
    apply decode_inv in Hk; subst k'; cbn [bind].
    destruct (if is_dict v && String.eqb k "info" then _ else _);
      [|discriminate].
    cbn [bind].
    destruct (str_key_items rec items) as [r|]; [|discriminate].
    intros [= <-]; cbn [map fst]; rewrite (IH r eq_refl); reflexivity.
Qed.

Lemma str_key_items_keys_valid (items : Dict) (kw : Kwargs) :
  str_key_items rec items = Ok kw ->
  forallb (fun kv => utf8_valid (fst kv)) items = true.
Proof.
  revert kw; induction items as [|[k v] items IH]; intros kw;
    [reflexivity|].
  cbn [str_key_items forallb fst]; unfold decode.
  destruct (utf8_valid k); [|discriminate].
  cbn [bind].
  destruct (if is_dict v && String.eqb k "info" then _ else _);
    [|discriminate].
  cbn [bind].
  destruct (str_key_items rec items) as [r|]; [|discriminate].
  intros _; apply (IH r eq_refl).
Qed.

Lemma str_key_items_bad_key (items : Dict) :
  forallb (fun kv => utf8_valid (fst kv)) items = false ->
  exists e, str_key_items rec items = Raise e.
Proof.
  induction items as [|[k v] items IH]; [discriminate|].
  cbn [str_key_items forallb fst]; unfold decode.
  destruct (utf8_valid k); cbn [bind andb]; [|eauto].
  intros Hbad; destruct (IH Hbad) as (e & ->).
  destruct (if is_dict v && String.eqb k "info" then _ else _);
    cbn [bind]; eauto.
Qed.

Lemma str_key_items_bad_info (items i : Dict) :
  dict_get String.eqb "info" items = Some (VDict i) ->
  (exists e, rec (VDict i) = Raise e) ->
  exists e, str_key_items rec items = Raise e.
Proof.
  intros Hget (e & He).
  induction items as [|[k v] items IH]; [discriminate|].
  cbn [str_key_items dict_get] in *.
  destruct (decode k); cbn [bind]; [|eauto].
  destruct (String.eqb k "info") eqn:Hk.
  - injection Hget as ->; cbn [is_dict andb]; rewrite He; cbn [bind]; eauto.
  - rewrite andb_false_r; cbn [bind].
    destruct (IH Hget) as (e' & ->); cbn [bind]; eauto.
Qed.

End Str_key_more.

(** On a dict the key conversion can only fail while decoding a key. *)
Lemma get_str_key_data_dict_raises (v : RawValue) (e : exn) :
  get_str_key_data_dict v = Raise e ->
  e = if is_dict v then UnicodeDecodeError else AttributeError.
Proof.
  revert e; induction v as [b|z|l _|d IH] using RawValue_nested_ind;
    intros e; try (intros [= <-]; reflexivity).
  cbn [get_str_key_data_dict is_dict].
  apply str_key_items_raises.
  rewrite Forall_forall in *; intros kv Hin e' He' Hdict.
  rewrite (IH kv Hin e' He'), Hdict; reflexivity.
Qed.

(** ** The instance that [__init__] returns *)

Section Construction_value.

Context `{Collaborators}.

Lemma __init___value (file : bytes) (decoded : Dict) (kw : Kwargs)
  (d : Data.t) (f : Torrent_format) (raw : RawValue) :
  bdecode file = Some (VDict decoded) ->
  get_str_key_data_dict (VDict decoded) = Ok kw ->
  Data.validate kw = Some d ->
  get_torrent_format (Build_Torrent file (VDict decoded) (Some d) None)
  = Ok f ->
  dict_get String.eqb "info" decoded = Some raw ->
  format_fields_present f d = true ->
  is_None (Data.Info.files (Data.info d))
  || is_None (Data.Info.length (Data.info d)) = true ->
  __init__ file
  = Ok (Build_Torrent (bencode (VDict decoded)) (VDict decoded) (Some d)
          (Some (Info_of f raw))).
Proof.
  intros Hfile Hkw Hd Hf Hraw Hfields Hboth.
  assert (Hf' : get_torrent_format
                  (Build_Torrent (bencode (VDict decoded)) (VDict decoded)
                     (Some d) None) = Ok f) by exact Hf.
  unfold __init__; rewrite Hfile; cbn [_data_dict is_dict negb].
  unfold _refresh, _refresh_data; cbn [_data_dict].
  rewrite Hkw; cbn [bind]; rewrite Hd.
  unfold _refresh_info, set_data, set_data_bytes.
  cbn [_data_dict _data_bytes _data info].
  rewrite Hf'.
  unfold get_hash_v1, get_hash_v2, raw_info, set_hash_v1, set_hash_v2,
    set_info.
  cbn [_data_dict _data_bytes _data info fst snd format hash_v1 hash_v2].
  rewrite Hraw.
  destruct f;
    cbn [bind _data_dict _data_bytes _data info fst snd format hash_v1
           hash_v2];
    unfold self_info, data;
    cbn [attribute bind info _data format];
    rewrite Hfields; cbn [negb]; rewrite <- negb_orb, Hboth; reflexivity.
Qed.

Lemma __init___exact (file : bytes) (t : Torrent) :
  __init__ file = Ok t ->
  exists decoded kw d f raw,
    bdecode file = Some (VDict decoded)
    /\ get_str_key_data_dict (VDict decoded) = Ok kw
    /\ Data.validate kw = Some d
    /\ get_torrent_format (Build_Torrent file (VDict decoded) (Some d) None)
       = Ok f
    /\ dict_get String.eqb "info" decoded = Some raw
    /\ format_fields_present f d = true
    /\ is_None (Data.Info.files (Data.info d))
       || is_None (Data.Info.length (Data.info d)) = true
    /\ t = Build_Torrent (bencode (VDict decoded)) (VDict decoded) (Some d)
             (Some (Info_of f raw)).
Proof.
  intros Ht.
  destruct (__init___inv _ _ Ht)
    as (decoded & kw & d & i & Hfile & _ & _ & Hkw & Hval & Hd & _ & Hf & _
        & _ & Hfields & Hboth).
  destruct (validated_info _ _ _ Hkw Hval) as (raw & _ & Hraw & _).
  assert (Hf' : get_torrent_format
                  (Build_Torrent file (VDict decoded) (Some d) None)
                = Ok (format i)).
  { rewrite <- Hf; apply get_torrent_format_data; rewrite Hd; reflexivity. }
  exists decoded, kw, d, (format i), raw.
  repeat (split; [assumption|]).
  pose proof (__init___value _ _ _ _ _ _ Hfile Hkw Hval Hf' Hraw Hfields Hboth)
    as Hvalue.
  congruence.
Qed.


Lemma __init___key_rejected (file : bytes) (decoded : Dict) (e : exn) :
  bdecode file = Some (VDict decoded) ->
  get_str_key_data_dict (VDict decoded) = Raise e ->
  __init__ file = Raise UnicodeDecodeError.
Proof.
  intros Hfile Hkw.
  rewrite (get_str_key_data_dict_raises _ _ Hkw) in Hkw; cbn [is_dict] in Hkw.
  unfold __init__; rewrite Hfile; cbn [_data_dict is_dict negb].
  unfold _refresh, _refresh_data; cbn [_data_dict].
  rewrite Hkw; reflexivity.
Qed.

End Construction_value.

Lemma get_torrent_format_inv (self : Torrent) (d : Data.t)
  (f : Torrent_format) :
  _data self = Some d ->
  get_torrent_format self = Ok f ->
  match f with
  | v1 => Data.Info.meta_version (Data.info d) = None
  | v2 => Data.Info.meta_version (Data.info d) = Some 2
          /\ Data.Info.files (Data.info d) = None
  | hybrid => Data.Info.meta_version (Data.info d) = Some 2
              /\ Data.Info.files (Data.info d) <> None
  end.
Proof.
  unfold get_torrent_format; intros ->; cbn [attribute bind].
  destruct (Data.Info.meta_version (Data.info d)) as [z|].
  - destruct z as [|p|p]; try discriminate.
    destruct p as [p|p|]; try discriminate.
    destruct p; try discriminate.
    destruct (Data.Info.files (Data.info d)); intros [= <-];
      split; congruence.
  - intros [= <-]; reflexivity.
Qed.


Section Construction_more.

Context `{Collaborators}.

(** X1. For a v2 or hybrid instance, [hash_v2] is the SHA-256 digest (32
    bytes) of the re-encoding of the raw value stored under [b"info"]; two
    inputs with the same raw [info] get the same [hash_v2]. *)
Theorem hash_v2_sha256_of_raw_info
  (Hsha256 : forall m, String.length (sha256 m) = 32%nat)
  (file : bytes) (t : Torrent) (i : Info) :
  __init__ file = Ok t ->
  info t = Some i ->
  format i = v2 \/ format i = hybrid ->
  (exists decoded raw,
      bdecode file = Some (VDict decoded)
      /\ dict_get String.eqb "info" decoded = Some raw
      /\ hash_v2 i = Some (sha256 (bencode raw))
      /\ String.length (sha256 (bencode raw)) = 32%nat)
  /\ (forall file' t' i' decoded decoded',
        __init__ file' = Ok t' ->
        info t' = Some i' ->
        format i' = v2 \/ format i' = hybrid ->
        bdecode file = Some (VDict decoded) ->
        bdecode file' = Some (VDict decoded') ->
        dict_get String.eqb "info" decoded'
        = dict_get String.eqb "info" decoded ->
        hash_v2 i' = hash_v2 i).
Proof.
  intros Ht Hi Hf.
  assert (Hhash : forall file t i,
             __init__ file = Ok t -> info t = Some i ->
             format i = v2 \/ format i = hybrid ->
             exists decoded raw,
               bdecode file = Some (VDict decoded)
               /\ dict_get String.eqb "info" decoded = Some raw
               /\ hash_v2 i = Some (sha256 (bencode raw))).
  { clear; intros file t i Ht Hi Hf.
    destruct (__init___inv _ _ Ht)
      as (decoded & _ & _ & i' & Hfile & _ & _ & _ & _ & _ & Hi' & _ & _
          & Hh2 & _).
    rewrite Hi in Hi'; injection Hi' as <-.
    destruct Hh2 as (raw & Hraw & Hh); [destruct Hf; congruence|].
    exists decoded, raw; auto. }
  split.
  - destruct (Hhash _ _ _ Ht Hi Hf) as (decoded & raw & ? & ? & ?).
    exists decoded, raw; auto.
  - intros file' t' i' decoded decoded' Ht' Hi' Hf' Hfile Hfile' Hsame.
    destruct (Hhash _ _ _ Ht Hi Hf) as (dec & raw & Hdec & Hraw & ->).
    destruct (Hhash _ _ _ Ht' Hi' Hf') as (dec' & raw' & Hdec' & Hraw' & ->).
    congruence.
Qed.

(** X2. In a returned instance the hashes follow the format: a v1 instance
    has [hash_v1] and no [hash_v2], a v2 instance has [hash_v2] and no
    [hash_v1], a hybrid instance has both, and both digest the same
    message. *)
Theorem info_hashes_by_format (file : bytes) (t : Torrent) :
  __init__ file = Ok t ->
  exists i raw,
    info t = Some i
    /\ raw_info t = Ok raw
    /\ get_torrent_format t = Ok (format i)
    /\ match format i with
       | v1 => hash_v1 i = Some (sha1 (bencode raw)) /\ hash_v2 i = None
       | v2 => hash_v1 i = None /\ hash_v2 i = Some (sha256 (bencode raw))
       | hybrid => hash_v1 i = Some (sha1 (bencode raw))
                   /\ hash_v2 i = Some (sha256 (bencode raw))
       end.
Proof.
  intros Ht.
  destruct (__init___exact _ _ Ht)
    as (decoded & kw & d & f & raw & _ & _ & _ & Hf & Hraw & _ & _ & ->).
  exists (Info_of f raw), raw.
  split; [reflexivity|].
  split; [unfold raw_info; cbn [_data_dict]; rewrite Hraw; reflexivity|].
  split; [exact Hf|].
  destruct f; split; reflexivity.
Qed.

(** X3. A returned instance keeps the decoded input as [data_dict] and its
    re-encoding, not the input bytes, as [data_bytes]; it depends on the
    input only through the decoded value. *)
Theorem data_bytes_reencoded (file : bytes) (t : Torrent) :
  __init__ file = Ok t ->
  bdecode file = Some (data_dict t)
  /\ data_bytes t = bencode (data_dict t)
  /\ (forall file', bdecode file' = bdecode file -> __init__ file' = Ok t).
Proof.
  intros Ht.
  destruct (__init___exact _ _ Ht)
    as (decoded & kw & d & f & raw & Hfile & Hkw & Hd & Hf & Hraw & Hfields
        & Hboth & ->).
  split; [exact Hfile|split; [reflexivity|]].
  intros file' Hfile'; rewrite Hfile in Hfile'.
  apply (__init___value file' decoded kw d f raw); auto.
Qed.


(** X5. A key that is not valid UTF-8, at the top level or in [info],
    makes the construction fail with [UnicodeDecodeError], which is not
    turned into a [Parse_error]. *)
Theorem non_utf8_key_rejected (file : bytes) (decoded : Dict) :
  bdecode file = Some (VDict decoded) ->
  forallb (fun kv => utf8_valid (fst kv)) decoded = false
  \/ (exists i, dict_get String.eqb "info" decoded = Some (VDict i)
                /\ forallb (fun kv => utf8_valid (fst kv)) i = false) ->
  __init__ file = Raise UnicodeDecodeError.
Proof.
  intros Hfile Hbad.
  assert (Hraise : exists e, get_str_key_data_dict (VDict decoded) = Raise e).
  { destruct Hbad as [Hbad|(i & Hinfo & Hbad)].
    - apply str_key_items_bad_key, Hbad.
    - apply (str_key_items_bad_info _ _ i Hinfo).
      apply (str_key_items_bad_key get_str_key_data_dict), Hbad. }
  destruct Hraise as (e & He).
  apply (__init___key_rejected _ _ _ Hfile He).
Qed.


(** X8. An input that passes the schema is accepted exactly when the
    classifier accepts its [meta_version], the fields of its format are
    present, and [files] and [length] are not both there. *)
Theorem __init___succeeds_iff (file : bytes) (decoded : Dict) (kw : Kwargs)
  (d : Data.t) :
  bdecode file = Some (VDict decoded) ->
  get_str_key_data_dict (VDict decoded) = Ok kw ->
  Data.validate kw = Some d ->
  (exists t, __init__ file = Ok t)
  <-> (exists f,
          get_torrent_format (Build_Torrent file (VDict decoded) (Some d) None)
          = Ok f
          /\ required_fields f d
          /\ ~ (Data.Info.files (Data.info d) <> None
                /\ Data.Info.length (Data.info d) <> None)).
Proof.
  intros Hfile Hkw Hd.
  pose proof (__init___validated _ _ _ _ Hfile Hkw Hd) as Hinit.
  destruct (get_torrent_format _) as [f|e] eqn:Hf.
  - destruct (format_fields_present f d) eqn:Hfields; cbn [andb] in Hinit.
    + destruct (is_None (Data.Info.files (Data.info d))
                || is_None (Data.Info.length (Data.info d))) eqn:Hboth.
      * split; [intros _|intros _; exact Hinit].
        exists f; split; [reflexivity|split].
        -- apply format_fields_present_required, Hfields.
        -- intros [Hfiles Hlength]; apply is_None_false in Hfiles, Hlength.
           rewrite Hfiles, Hlength in Hboth; discriminate.
      * split; [intros (t & Ht); congruence|].
        intros (f' & _ & _ & Hnot); exfalso; apply Hnot.
        apply orb_false_elim in Hboth as [Hfiles Hlength].
        split; apply is_None_false; assumption.
    + split; [intros (t & Ht); congruence|].
      intros (f' & [= <-] & Hreq & _).
      apply format_fields_present_required in Hreq; congruence.
  - split; [intros (t & Ht); congruence|].
    intros (f' & Hf' & _); discriminate.
Qed.

(** X9. The fields of a returned instance, format by format: a v1
    instance has no [meta_version], has [pieces] and exactly one of
    [files] and [length]; a v2 instance has [meta_version] 2, no [files],
    and has [file_tree] and [piece_layers]; a hybrid instance has
    [meta_version] 2, [files] and no [length], and has [pieces],
    [file_tree] and [piece_layers]. *)
Theorem constructed_fields_by_format (file : bytes) (t : Torrent) :
  __init__ file = Ok t ->
  exists d i,
    _data t = Some d /\ info t = Some i
    /\ match format i with
       | v1 =>
           Data.Info.meta_version (Data.info d) = None
           /\ Data.Info.pieces (Data.info d) <> None
           /\ ((Data.Info.files (Data.info d) <> None
                /\ Data.Info.length (Data.info d) = None)
               \/ (Data.Info.files (Data.info d) = None
                   /\ Data.Info.length (Data.info d) <> None))
       | v2 =>
           Data.Info.meta_version (Data.info d) = Some 2
           /\ Data.Info.files (Data.info d) = None
           /\ Data.Info.file_tree (Data.info d) <> None
           /\ Data.piece_layers d <> None
       | hybrid =>
           Data.Info.meta_version (Data.info d) = Some 2
           /\ Data.Info.files (Data.info d) <> None
           /\ Data.Info.length (Data.info d) = None
           /\ Data.Info.pieces (Data.info d) <> None
           /\ Data.Info.file_tree (Data.info d) <> None
           /\ Data.piece_layers d <> None
       end.
Proof.
  intros Ht.
  destruct (__init___inv _ _ Ht)
    as (decoded & kw & d & i & _ & _ & _ & _ & _ & Hd & Hi & Hf & _ & _
        & Hfields & Hboth).
  exists d, i; split; [exact Hd|split; [exact Hi|]].
  pose proof (get_torrent_format_inv t d _ Hd Hf) as Hclass.
  unfold format_fields_present in Hfields.
  destruct (format i);
    destruct (Data.Info.pieces (Data.info d)),
      (Data.Info.files (Data.info d)),
      (Data.Info.length (Data.info d)),
      (Data.Info.file_tree (Data.info d)),
      (Data.Info.meta_version (Data.info d)),
      (Data.piece_layers d);
    cbn in Hfields, Hboth; try discriminate;
    intuition congruence.
Qed.

End Construction_more.

(** X6. The key conversion keeps the keys in their order, succeeds only
    on UTF-8 keys, hands every value on unchanged except a dict under
    [b"info"], and converts that one in the same way. *)
Theorem get_str_key_data_dict_keys (d : Dict) (kw : Kwargs) :
  get_str_key_data_dict (VDict d) = Ok kw ->
  map fst kw = map fst d
  /\ forallb (fun kv => utf8_valid (fst kv)) d = true
  /\ (forall k v,
        dict_get String.eqb k d = Some v ->
        is_dict v && String.eqb k "info" = false ->
        dict_get String.eqb k kw = Some (Raw v))
  /\ (forall i,
        dict_get String.eqb "info" d = Some (VDict i) ->
        exists kwi,
          get_str_key_data_dict (VDict i) = Ok kwi
          /\ dict_get String.eqb "info" kw = Some (StrDict kwi)).
Proof.
  intros Hkw.
  split; [apply (str_key_items_keys _ _ _ Hkw)|].
  split; [apply (str_key_items_keys_valid _ _ _ Hkw)|].
  split.
  - intros k v Hv Hraw; apply (str_key_items_raw _ _ _ _ _ Hkw Hv Hraw).
  - intros i Hi; apply (str_key_items_info _ _ _ _ Hkw Hi).
Qed.

(** ** More on sizes *)





Lemma traverse_raw_File (l : list RawValue) (files : list Dict) :
  traverse raw_File l = Some files ->
  Forall (fun file => is_File (VDict file) = true) files.
Proof.
  revert files; induction l as [|v l IH]; intros files.
  - intros [= <-]; constructor.
  - cbn [traverse]; unfold raw_File at 1.
    destruct v as [b|z|l'|file]; try discriminate.
    destruct (is_File (VDict file)) eqn:Hfile; [|discriminate].
    cbn [obind].
    destruct (traverse raw_File l) as [r|]; [|discriminate].
    intros [= <-]; constructor; auto.
Qed.

(** Validated [files] have the type [list[File]]. *)
Lemma validated_files `{Collaborators} (kw : Kwargs) (d : Data.t)
  (files : list Dict) :
  Data.validate kw = Some d ->
  Data.Info.files (Data.info d) = Some files ->
  Forall (fun file => is_File (VDict file) = true) files.
Proof.
  intros Hd Hfiles; apply Data_validate_info in Hd.
  unfold required in Hd.
  destruct (dict_get String.eqb "info" kw) as [v|]; [|discriminate].
  cbn [obind] in Hd.
  destruct (Info_validate_fields _ _ Hd) as (kwi & _ & _ & Hf & _).
  rewrite Hfiles in Hf; unfold optional in Hf.
  destruct (dict_get String.eqb "files" kwi) as [[[b|z|l|t]|kt]|];
    try discriminate.
  cbn [as_files obind] in Hf.
  destruct (traverse raw_File l) as [r|] eqn:Hr; [|discriminate].
  injection Hf as <-; apply (traverse_raw_File _ _ Hr).
Qed.

Lemma point_xl_File (file : Dict) :
  is_File (VDict file) = true ->
  keys_distinct file = true ->
  point_xl (VDict file) = file_length file.
Proof.
  intros Hfile Hkeys; cbn [point_xl]; unfold file_length.
  apply items_xl_File; assumption.
Qed.

(** X11. On validated data the v1 path returns the sum of the integers
    stored under [b"length"] in the file records (a record without one
    counts 0; nothing nested is ever read, a [File] holds no dict), and
    [length] itself when there is no [files]. *)
Theorem _get_files_xl_validated `{Collaborators} (self : Torrent)
  (kw : Kwargs) (d : Data.t)
  (Hdata : _data self = Some d) (Hvalid : Data.validate kw = Some d) :
  (forall files,
      Data.Info.files (Data.info d) = Some files ->
      Forall (fun file => keys_distinct file = true) files ->
      _get_files_xl self = Ok (Some (sum_int (map file_length files))))
  /\ (Data.Info.files (Data.info d) = None ->
      _get_files_xl self = Ok (Data.Info.length (Data.info d))).
Proof.
  unfold _get_files_xl, data; rewrite Hdata; cbn [attribute bind].
  split.
  - intros files Hfiles Hkeys; rewrite Hfiles.
    pose proof (validated_files kw d files Hvalid Hfiles) as Hty.
    do 3 f_equal; apply map_ext_in; intros file Hin.
    rewrite Forall_forall in Hty, Hkeys.
    apply point_xl_File; auto.
  - intros ->; reflexivity.
Qed.

(** ** More on the magnet link *)

Lemma bind_Ok {A B : Type} (r : result A) (k : A -> result B) (b : B) :
  bind r k = Ok b -> exists a, r = Ok a /\ k a = Ok b.
Proof. destruct r as [a|e]; [eauto|discriminate]. Qed.

Lemma contains_append (c : ascii) (a b : str) :
  contains c (String.append a b) = contains c a || contains c b.
Proof.
  induction a as [|x a IH]; [reflexivity|].
  cbn [String.append contains]; rewrite IH, orb_assoc; reflexivity.
Qed.

Lemma hex_byte_no_amp (upper : bool) (c : ascii) :
  contains "&" (hex_byte upper c) = false.
Proof.
  destruct upper; destruct c as [[] [] [] [] [] [] [] []]; reflexivity.
Qed.

Lemma hexdigest_no_amp (h : HASH) : contains "&" (hexdigest h) = false.
Proof.
  induction h as [|c h IH]; [reflexivity|].
  cbn [hexdigest]; rewrite contains_append, hex_byte_no_amp, IH; reflexivity.
Qed.

Lemma quoter_no_amp (c : ascii) : contains "&" (quoter ["/"%char] c) = false.
Proof. destruct c as [[] [] [] [] [] [] [] []]; reflexivity. Qed.

Lemma quote_no_amp (bs : bytes) : contains "&" (quote bs) = false.
Proof.
  unfold quote; induction bs as [|c bs IH]; [reflexivity|].
  cbn [quote_from_bytes]; rewrite contains_append, quoter_no_amp, IH.
  reflexivity.
Qed.

Lemma string_of_uint_no_amp (d : Decimal.uint) :
  contains "&" (NilEmpty.string_of_uint d) = false.
Proof. induction d; cbn; auto. Qed.

Lemma str_of_int_no_amp (n : Z) : contains "&" (str_of_int n) = false.
Proof.
  unfold str_of_int, NilZero.string_of_int, NilZero.string_of_uint.
  destruct (Z.to_int n) as [d|d]; destruct d; try reflexivity;
    match goal with
    | |- context [NilEmpty.string_of_uint ?u] =>
        exact (string_of_uint_no_amp u)
    end.
Qed.

Lemma split_on_absent (c : ascii) (s : str) :
  contains c s = false -> split_on c s = [s].
Proof.
  induction s as [|a s IH]; [reflexivity|].
  cbn [contains split_on]; intros H; apply orb_false_elim in H as [Ha Hs].
  rewrite Ha, (IH Hs); reflexivity.
Qed.

Lemma split_on_append (c : ascii) (a b : str) :
  contains c a = false ->
  split_on c (String.append a (String c b)) = a :: split_on c b.
Proof.
  induction a as [|x a IH].
  - intros _; cbn [String.append split_on]; rewrite Ascii.eqb_refl.
    reflexivity.
  - cbn [contains String.append split_on]; intros H.
    apply orb_false_elim in H as [Hx Ha].
    rewrite Hx, (IH Ha); reflexivity.
Qed.

(** Splitting a joined list gives the list back when no piece holds the
    separator. *)
Lemma split_on_join (c : ascii) (pieces : list str) :
  pieces <> [] ->
  Forall (fun p => contains c p = false) pieces ->
  split_on c (join (String c EmptyString) pieces) = pieces.
Proof.
  intros Hne Hall; induction Hall as [|p rest Hp Hrest IH]; [congruence|].
  destruct rest as [|q rest].
  - apply split_on_absent, Hp.
  - change (join (String c EmptyString) (p :: q :: rest))
      with (String.append p
              (String c (join (String c EmptyString) (q :: rest)))).
    rewrite (split_on_append c p _ Hp), IH; [reflexivity|discriminate].
Qed.

Lemma parameter_intro (key value : str) :
  In key ["xt"; "dn"; "xl"; "ws"; "tr"] ->
  contains "&" key = false ->
  contains "&" value = false ->
  parameter (String.append key (String "=" value)).
Proof.
  intros Hkey Hk Hv; split; [|eauto].
  rewrite contains_append, Hk; cbn [contains orb]; exact Hv.
Qed.

Lemma parameters_quoted (key : str) (urls : list bytes) :
  In key ["xt"; "dn"; "xl"; "ws"; "tr"] ->
  contains "&" key = false ->
  Forall parameter
    (map (fun url => String.append key (String "=" (quote url))) urls).
Proof.
  intros Hkey Hk; apply Forall_forall; intros p Hin.
  apply in_map_iff in Hin as (url & <- & _).
  apply parameter_intro; auto using quote_no_amp.
Qed.

(** X12. Whatever the names and URLs are, a magnet link is "magnet:?"
    followed by parameters joined with [&]; the first one is an [xt],
    every one is [key=value] with a key among xt, dn, xl, ws and tr, and
    none holds an [&] of its own, so that splitting the link at [&] gives
    back exactly the parameters that were emitted. *)
Theorem get_magnet_parameters (self : Torrent) (dn xl ws tr only_one_tr : bool)
  (s : str) :
  get_magnet self dn xl ws tr only_one_tr = Ok s ->
  exists params,
    s = String.append "magnet:?" (join "&" params)
    /\ Forall parameter params
    /\ split_on "&" (join "&" params) = params
    /\ exists value rest, params = String.append "xt=" value :: rest.
Proof.
  unfold get_magnet; intros H.
  apply bind_Ok in H as (i & _ & H).
  apply bind_Ok in H as (xt & Hxt & H).
  apply bind_Ok in H as (p_dn & Hdn & H).
  apply bind_Ok in H as (p_xl & Hxl & H).
  apply bind_Ok in H as (p_ws & Hws & H).
  apply bind_Ok in H as (p_tr & Htr & H).
  injection H as <-.
  assert (Hxt' : Forall parameter xt
                 /\ exists value rest, xt = String.append "xt=" value :: rest).
  { destruct (format i).
    - apply bind_Ok in Hxt as (h & _ & [= <-]); split.
      + constructor; [|constructor].
        apply (parameter_intro "xt" (String.append "urn:btih:" (hexdigest h)));
          [cbn; auto|reflexivity|].
        rewrite contains_append, hexdigest_no_amp; reflexivity.
      + eexists _, _; reflexivity.
    - apply bind_Ok in Hxt as (h & _ & [= <-]); split.
      + constructor; [|constructor].
        apply (parameter_intro "xt"
                 (String.append "urn:btmh:1220" (hexdigest h)));
          [cbn; auto|reflexivity|].
        rewrite contains_append, hexdigest_no_amp; reflexivity.
      + eexists _, _; reflexivity.
    - destruct (hash_v1 i) as [h|], (hash_v2 i) as [h'|]; try discriminate.
      injection Hxt as <-; split.
      + constructor; [|constructor; [|constructor]].
        * apply (parameter_intro "xt"
                   (String.append "urn:btih:" (hexdigest h)));
            [cbn; auto|reflexivity|].
          rewrite contains_append, hexdigest_no_amp; reflexivity.
        * apply (parameter_intro "xt"
                   (String.append "urn:btmh:1220" (hexdigest h')));
            [cbn; auto|reflexivity|].
          rewrite contains_append, hexdigest_no_amp; reflexivity.
      + eexists _, _; reflexivity. }
  destruct Hxt' as (Hxt' & value & rest & Hfirst).
  assert (Hdn' : Forall parameter p_dn).
  { destruct dn; [|injection Hdn as <-; constructor].
    apply bind_Ok in Hdn as (d & _ & [= <-]).
    apply (parameters_quoted "dn" [_]); cbn; auto. }
  assert (Hxl' : Forall parameter p_xl).
  { destruct xl; [|injection Hxl as <-; constructor].
    apply bind_Ok in Hxl as (n & _ & [= <-]).
    constructor; [|constructor].
    apply (parameter_intro "xl" (str_of_int n));
      [cbn; auto|reflexivity|apply str_of_int_no_amp]. }
  assert (Hws' : Forall parameter p_ws).
  { destruct ws; [|injection Hws as <-; constructor].
    apply bind_Ok in Hws as (d & _ & Hws).
    destruct (Data.url_list d) as [[l|b]|]; injection Hws as <-.
    - apply (parameters_quoted "ws" l); cbn; auto.
    - apply (parameters_quoted "ws" [b]); cbn; auto.
    - constructor. }
  assert (Htr' : Forall parameter p_tr).
  { destruct tr; [|injection Htr as <-; constructor].
    apply bind_Ok in Htr as (d & _ & [= <-]).
    apply (parameters_quoted "tr"); cbn; auto 10. }
  assert (Hall : Forall parameter (xt ++ p_dn ++ p_xl ++ p_ws ++ p_tr))
    by (repeat (apply Forall_app; split; try assumption)).
  exists (xt ++ p_dn ++ p_xl ++ p_ws ++ p_tr).
  split; [reflexivity|split; [exact Hall|split]].
  - apply split_on_join.
    + rewrite Hfirst; discriminate.
    + apply (Forall_impl _ (fun p Hp => proj1 Hp) Hall).
  - rewrite Hfirst; eexists _, _; reflexivity.
Qed.

(** X13. On a returned instance the assertions of [get_magnet] on the
    hashes never fail: without [xl] a link is always produced, and with
    [xl] it is produced exactly when [get_xl] returns, whose exception is
    passed on otherwise. *)
Theorem get_magnet_constructed `{Collaborators} (file : bytes) (t : Torrent)
  (dn ws tr only_one_tr : bool) :
  __init__ file = Ok t ->
  (exists s, get_magnet t dn false ws tr only_one_tr = Ok s)
  /\ match get_xl t with
     | Ok _ => exists s, get_magnet t dn true ws tr only_one_tr = Ok s
     | Raise e => get_magnet t dn true ws tr only_one_tr = Raise e
     end.
Proof.
  intros Ht.
  destruct (__init___exact _ _ Ht)
    as (decoded & kw & d & f & raw & _ & _ & _ & _ & _ & _ & _ & Heq).
  assert (Hi : self_info t = Ok (Info_of f raw)) by (rewrite Heq; reflexivity).
  assert (Hd : data t = Ok d) by (rewrite Heq; reflexivity).
  clear Heq; unfold get_magnet; rewrite Hi, Hd; cbn [bind].
  assert (Hxt : exists xt,
             match format (Info_of f raw) with
             | v1 =>
                 do h <- match hash_v1 (Info_of f raw) with
                         | Some h => Ok h
                         | None => Raise AssertionError
                         end;
                 Ok [String.append "xt=urn:btih:" (hexdigest h)]
             | v2 =>
                 do h <- match hash_v2 (Info_of f raw) with
                         | Some h => Ok h
                         | None => Raise AssertionError
                         end;
                 Ok [String.append "xt=urn:btmh:1220" (hexdigest h)]
             | hybrid =>
                 match hash_v1 (Info_of f raw), hash_v2 (Info_of f raw) with
                 | Some h, Some h' =>
                     Ok [String.append "xt=urn:btih:" (hexdigest h);
                         String.append "xt=urn:btmh:1220" (hexdigest h')]
                 | _, _ => Raise AssertionError
                 end
             end = Ok xt)
    by (destruct f; eexists; reflexivity).
  destruct Hxt as (xt & ->); cbn [bind].
  split.
  - destruct dn, ws, tr, (Data.url_list d) as [[l|b]|]; cbn [bind]; eauto.
  - destruct (get_xl t) as [n|e]; cbn [bind];
      destruct dn, ws, tr, (Data.url_list d) as [[l|b]|]; cbn [bind]; eauto.
Qed.

(** ** More on assigning [data_dict] *)

Section Setter_more.

Context `{Collaborators}.

(** What [_refresh] leaves when the schema and the classifier accept. *)
Lemma _refresh_value (self : Torrent) (decoded : Dict) (kw : Kwargs)
  (d : Data.t) (f : Torrent_format) (raw : RawValue) :
  _data_dict self = VDict decoded ->
  get_str_key_data_dict (VDict decoded) = Ok kw ->
  Data.validate kw = Some d ->
  get_torrent_format (set_data self d) = Ok f ->
  dict_get String.eqb "info" decoded = Some raw ->
  _refresh self
  = (Build_Torrent (bencode (VDict decoded)) (VDict decoded) (Some d)
       (Some (Info_of f raw)), Ok tt).
Proof.
  destruct self as [b dd da inf]; cbn [_data_dict].
  intros -> Hkw Hd Hf Hraw.
  assert (Hf' : get_torrent_format
                  (Build_Torrent (bencode (VDict decoded)) (VDict decoded)
                     (Some d) inf) = Ok f) by exact Hf.
  unfold _refresh, _refresh_data; cbn [_data_dict].
  rewrite Hkw; cbn [bind]; rewrite Hd.
  unfold _refresh_info, set_data, set_data_bytes.
  cbn [_data_dict _data_bytes _data info].
  rewrite Hf'.
  unfold get_hash_v1, get_hash_v2, raw_info, set_hash_v1, set_hash_v2,
    set_info.
  cbn [_data_dict _data_bytes _data info fst snd format hash_v1 hash_v2].
  rewrite Hraw.
  destruct f; reflexivity.
Qed.

(** X14. Assigning to a returned instance its own [data_dict] succeeds and
    gives the same instance back. *)
Theorem data_dict_setter_same (file : bytes) (t : Torrent) :
  __init__ file = Ok t ->
  data_dict_setter t (data_dict t) = (t, Ok tt).
Proof.
  intros Ht.
  destruct (__init___exact _ _ Ht)
    as (decoded & kw & d & f & raw & _ & Hkw & Hd & Hf & Hraw & _ & _ & ->).
  unfold data_dict_setter, data_dict; cbn [_data_dict].
  apply (_refresh_value _ decoded kw d f raw); auto.
Qed.

(** X15. An assignment to [data_dict] succeeds exactly when the new
    structure passes the schema and the classifier; the field combinations
    checked by [__init__] are not looked at.  The instance it leaves is the
    new structure with its re-encoding, typed data and hashes: nothing of
    the previous state remains. *)
Theorem data_dict_setter_success (self : Torrent) (value : RawValue) :
  (forall self' u,
      data_dict_setter self value = (self', Ok u) ->
      exists decoded kw d f raw,
        value = VDict decoded
        /\ get_str_key_data_dict value = Ok kw
        /\ Data.validate kw = Some d
        /\ get_torrent_format (set_data self d) = Ok f
        /\ dict_get String.eqb "info" decoded = Some raw
        /\ self' = Build_Torrent (bencode value) value (Some d)
                     (Some (Info_of f raw)))
  /\ (forall kw d f,
        get_str_key_data_dict value = Ok kw ->
        Data.validate kw = Some d ->
        get_torrent_format (set_data self d) = Ok f ->
        exists self', data_dict_setter self value = (self', Ok tt)).
Proof.
  split.
  - intros self' u Hset.
    pose proof Hset as Hset'.
    unfold data_dict_setter, _refresh in Hset.
    destruct (_refresh_data (set_data_dict self value)) as [s1 [u1|e1]]
      eqn:Hdata; [|discriminate].
    apply _refresh_data_inv in Hdata as (kw & d & Hkw & Hd & ->).
    cbn [_data_dict set_data_dict] in Hkw.
    apply _refresh_info_inv in Hset as (i & _ & Hf & _).
    destruct value as [b|z|l|decoded]; try discriminate.
    destruct (validated_info _ _ _ Hkw Hd) as (raw & _ & Hraw & _).
    assert (Hf' : get_torrent_format (set_data self d) = Ok (format i)).
    { rewrite <- Hf; apply get_torrent_format_data; reflexivity. }
    exists decoded, kw, d, (format i), raw.
    repeat (split; [first [reflexivity|assumption]|]).
    unfold data_dict_setter in Hset'.
    rewrite (_refresh_value _ decoded kw d (format i) raw) in Hset';
      auto; congruence.
  - intros kw d f Hkw Hd Hf.
    destruct value as [b|z|l|decoded]; try discriminate.
    destruct (validated_info _ _ _ Hkw Hd) as (raw & _ & Hraw & _).
    eexists; unfold data_dict_setter.
    apply (_refresh_value _ decoded kw d f raw); auto.
Qed.

End Setter_more.

(** ** Fields the models do not name *)

Lemma required_cons {A : Type} (validate : KwValue -> option A)
  (k : str) (v : KwValue) (kw : Kwargs) (alias : str) :
  String.eqb k alias = false ->
  required validate ((k, v) :: kw) alias = required validate kw alias.
Proof. unfold required; cbn [dict_get]; intros ->; reflexivity. Qed.

Lemma optional_cons {A : Type} (validate : KwValue -> option A)
  (k : str) (v : KwValue) (kw : Kwargs) (alias : str) :
  String.eqb k alias = false ->
  optional validate ((k, v) :: kw) alias = optional validate kw alias.
Proof. unfold optional; cbn [dict_get]; intros ->; reflexivity. Qed.

(** X16. A key that names no field is accepted by both models with any
    value ([extra="allow"]): the outcome of the validation and the typed
    fields are the same as without it, and the item is kept among the
    extra fields. *)
Theorem validate_extra_key `{Collaborators} (k : str) (v : KwValue)
  (kw : Kwargs) :
  (existsb (String.eqb k) Data.aliases = false ->
   Data.validate ((k, v) :: kw)
   = match Data.validate kw with
     | Some d =>
         Some (Data.Build (Data.announce d) (Data.announce_list d)
                 (Data.comment d) (Data.created_by d) (Data.creation_date d)
                 (Data.info d) (Data.url_list d) (Data.piece_layers d)
                 ((k, v) :: Data.extra d))
     | None => None
     end)
  /\ (existsb (String.eqb k) Data.Info.aliases = false ->
      Data.Info.validate (StrDict ((k, v) :: kw))
      = match Data.Info.validate (StrDict kw) with
        | Some i =>
            Some (Data.Info.Build (Data.Info.name i)
                    (Data.Info.piece_length i) (Data.Info.source i)
                    (Data.Info.length i) (Data.Info.files i)
                    (Data.Info.pieces i) (Data.Info.file_tree i)
                    (Data.Info.meta_version i) ((k, v) :: Data.Info.extra i))
        | None => None
        end).
Proof.
  split; intros Hk.
  - unfold Data.validate, extra_fields; cbn [filter fst]; rewrite Hk.
    cbn [existsb Data.aliases] in Hk.
    repeat (apply orb_false_elim in Hk as [? Hk]).
    rewrite !optional_cons, !required_cons by assumption.
    repeat match goal with
           | |- context [obind ?o _] =>
               destruct o; cbn [obind negb]; [|reflexivity]
           end.
    reflexivity.
  - unfold Data.Info.validate, extra_fields; cbn [filter fst]; rewrite Hk.
    cbn [existsb Data.Info.aliases] in Hk.
    repeat (apply orb_false_elim in Hk as [? Hk]).
    rewrite !optional_cons, !required_cons by assumption.
    repeat match goal with
           | |- context [obind ?o _] =>
               destruct o; cbn [obind negb]; [|reflexivity]
           end.
    reflexivity.
Qed.

(** ** Reading a link back *)

Lemma filter_map_const {A B : Type} (p : B -> bool) (f : A -> B) (b : bool)
  (l : list A) :
  (forall a, p (f a) = b) ->
  filter p (map f l) = if b then map f l else [].
Proof.
  intros Hp; induction l as [|a l IH]; [destruct b; reflexivity|].
  cbn [map filter]; rewrite Hp, IH; destruct b; reflexivity.
Qed.

Lemma no_amp_quoted (key : str) (urls : list bytes) :
  contains "&" key = false ->
  Forall (fun p => contains "&" p = false)
    (map (fun url => String.append key (quote url)) urls).
Proof.
  intros Hk; apply Forall_forall; intros p Hin.
  apply in_map_iff in Hin as (url & <- & _).
  rewrite contains_append, Hk, quote_no_amp; reflexivity.
Qed.

(** X17. What a link says can be read back from it: its [dn] parameter is
    the quoted name when [dn] is set; its [ws] parameters are the quoted
    web seeds in their order when [ws] is set; its [tr] parameters are the
    quoted trackers, tier after tier, when [tr] is set, and those of the
    first tier only (all of them) with [only_one_tr]; its [xl] parameter
    is the result of [get_xl] when [xl] is set.  A parameter that is
    switched off is absent. *)
Theorem get_magnet_read_back (self : Torrent) (d : Data.t)
  (dn xl ws tr only_one_tr : bool) (s : str) :
  _data self = Some d ->
  get_magnet self dn xl ws tr only_one_tr = Ok s ->
  parameters_with "dn" s
  = (if dn then [String.append "dn=" (quote (Data.Info.name (Data.info d)))]
     else [])
  /\ parameters_with "xl" s
     = (if xl then
          match get_xl self with
          | Ok n => [String.append "xl=" (str_of_int n)]
          | Raise _ => []
          end
        else [])
  /\ parameters_with "ws" s
     = (if ws then map (fun url => String.append "ws=" (quote url))
                     (web_seeds d)
        else [])
  /\ parameters_with "tr" s
     = (if tr then
          map (fun url => String.append "tr=" (quote url))
            (List.concat (if only_one_tr then firstn 1 (announce_tiers d)
                          else announce_tiers d))
        else []).
Proof.
  intros Hd; unfold get_magnet, data; rewrite Hd; cbn [attribute].
  intros H.
  apply bind_Ok in H as (i & _ & H).
  apply bind_Ok in H as (xt & Hxt & H).
  apply bind_Ok in H as (p_dn & Hdn & H).
  apply bind_Ok in H as (p_xl & Hxl & H).
  apply bind_Ok in H as (p_ws & Hws & H).
  apply bind_Ok in H as (p_tr & Htr & H).
  injection H as <-.
  assert (Hxt' : exists h xt',
             xt = String.append "xt=urn:bt" h :: xt'
             /\ Forall (fun p => contains "&" p = false) xt
             /\ forall key, In key ["dn"; "xl"; "ws"; "tr"] ->
                            filter (starts_with (String.append key "=")) xt
                            = []).
  { assert (Hkeys : forall (P : str -> Prop),
               P "dn" -> P "xl" -> P "ws" -> P "tr" ->
               forall key, In key ["dn"; "xl"; "ws"; "tr"] -> P key).
    { intros P ? ? ? ? key [<-|[<-|[<-|[<-|[]]]]]; assumption. }
    destruct (format i).
    - apply bind_Ok in Hxt as (h & _ & [= <-]).
      exists (String.append "ih:" (hexdigest h)), [].
      split; [reflexivity|split].
      + constructor; [|constructor].
        exact (hexdigest_no_amp h).
      + apply Hkeys; reflexivity.
    - apply bind_Ok in Hxt as (h & _ & [= <-]).
      exists (String.append "mh:1220" (hexdigest h)), [].
      split; [reflexivity|split].
      + constructor; [|constructor].
        exact (hexdigest_no_amp h).
      + apply Hkeys; reflexivity.
    - destruct (hash_v1 i) as [h|], (hash_v2 i) as [h'|]; try discriminate.
      injection Hxt as <-.
      eexists (String.append "ih:" (hexdigest h)), [_].
      split; [reflexivity|split].
      + constructor; [|constructor; [|constructor]];
          [exact (hexdigest_no_amp h)|exact (hexdigest_no_amp h')].
      + apply Hkeys; reflexivity. }
  destruct Hxt' as (h & xt' & Hfirst & Hxt_amp & Hxt_none).
  assert (Hdn' : p_dn = if dn then
                          map (fun n => String.append "dn=" (quote n))
                            [Data.Info.name (Data.info d)]
                        else [])
    by (destruct dn; cbn [bind] in Hdn; injection Hdn as <-; reflexivity).
  assert (Hxl' : p_xl = if xl then
                          match get_xl self with
                          | Ok n => [String.append "xl=" (str_of_int n)]
                          | Raise _ => []
                          end
                        else []).
  { destruct xl; [|injection Hxl as <-; reflexivity].
    apply bind_Ok in Hxl as (n & -> & [= <-]); reflexivity. }
  assert (Hws' : p_ws = if ws then
                          map (fun url => String.append "ws=" (quote url))
                            (web_seeds d)
                        else []).
  { destruct ws; cbn [bind] in Hws; [|injection Hws as <-; reflexivity].
    unfold web_seeds; destruct (Data.url_list d) as [[l|b]|];
      injection Hws as <-; reflexivity. }
  assert (Htr' : p_tr = if tr then
                          map (fun url => String.append "tr=" (quote url))
                            (List.concat
                               (if only_one_tr
                                then firstn 1 (announce_tiers d)
                                else announce_tiers d))
                        else [])
    by (destruct tr; cbn [bind] in Htr; injection Htr as <-; reflexivity).
  clear Hdn Hxl Hws Htr Hxt.
  assert (Hamp : Forall (fun p => contains "&" p = false)
                   (xt ++ p_dn ++ p_xl ++ p_ws ++ p_tr)).
  { repeat (apply Forall_app; split); try exact Hxt_amp; subst.
    - destruct dn; [apply (no_amp_quoted "dn=")|constructor]; reflexivity.
    - destruct xl; [|constructor].
      destruct (get_xl self); constructor; [|constructor].
      rewrite contains_append, str_of_int_no_amp; reflexivity.
    - destruct ws; [apply (no_amp_quoted "ws=")|constructor]; reflexivity.
    - destruct tr; [apply (no_amp_quoted "tr=")|constructor]; reflexivity. }
  assert (Hlink : forall key,
             parameters_with key
               (String.append "magnet:?"
                  (join "&" (xt ++ p_dn ++ p_xl ++ p_ws ++ p_tr)))
             = filter (starts_with (String.append key "="))
                 (xt ++ p_dn ++ p_xl ++ p_ws ++ p_tr)).
  { intros key; unfold parameters_with, link_parameters.
    cbn [String.append drop_chars].
    rewrite split_on_join; [reflexivity| |exact Hamp].
    rewrite Hfirst; discriminate. }
  rewrite !Hlink, !filter_app.
  rewrite !Hxt_none by (cbn; auto 10).
  rewrite Hdn', Hxl', Hws', Htr'.
  repeat split;
    destruct dn, xl, ws, tr; try destruct (get_xl self);
    unfold str, bytes;
    repeat match goal with
           | |- context [@filter ?B ?p (@map ?A ?B ?f ?l)] =>
               first [ rewrite (@filter_map_const A B p f true l)
                         by (intros; reflexivity)
                     | rewrite (@filter_map_const A B p f false l)
                         by (intros; reflexivity) ]
           end;
    cbn [filter app starts_with String.append Ascii.eqb Bool.eqb andb];
    rewrite ?app_nil_r; reflexivity.
Qed.

(** ** The further properties on concrete inputs *)

Lemma Reference_sha256_length (m : bytes) :
  String.length (Reference.sha256 m) = 32%nat.
Proof.
  unfold Reference.sha256.
  destruct (fold_left Reference.sha256_block _ _)
    as [[[[[[[h0 h1] h2] h3] h4] h5] h6] h7].
  reflexivity.
Qed.

Lemma hash_v2_sha256_of_raw_info_witness :
  exists i,
    info (Examples.instance Examples.hybrid_file) = Some i
    /\ (exists raw,
           hash_v2 i = Some (Reference.sha256 (Reference.bencode raw))
           /\ String.length (Reference.sha256 (Reference.bencode raw))
              = 32%nat)
    /\ (forall i',
           info (Examples.instance Examples.hybrid_file_with_comment)
           = Some i' ->
           hash_v2 i' = hash_v2 i).
Proof.
  destruct (info (Examples.instance Examples.hybrid_file)) as [i|] eqn:Hi;
    [|vm_compute in Hi; discriminate].
  assert (Hf : format i = v2 \/ format i = hybrid).
  { vm_compute in Hi; injection Hi as <-; right; reflexivity. }
  assert (Ht : @__init__ reference Examples.hybrid_file
               = Ok (Examples.instance Examples.hybrid_file))
    by (vm_compute; reflexivity).
  destruct (@hash_v2_sha256_of_raw_info reference Reference_sha256_length
              Examples.hybrid_file _ i Ht Hi Hf)
    as [(decoded & raw & _ & _ & Hhash & Hlen) Hsame].
  exists i; split; [reflexivity|split].
  - exists raw; split; [exact Hhash|exact Hlen].
  - intros i' Hi'.
    eapply (Hsame Examples.hybrid_file_with_comment _ i');
      [ vm_compute; reflexivity | exact Hi'
      | vm_compute in Hi'; injection Hi' as <-; right; reflexivity
      | reflexivity | reflexivity | reflexivity ].
Defined.

Lemma info_hashes_by_format_witness :
  exists i raw,
    info (Examples.instance Examples.v2_file) = Some i
    /\ raw_info (Examples.instance Examples.v2_file) = Ok raw
    /\ get_torrent_format (Examples.instance Examples.v2_file)
       = Ok (format i)
    /\ match format i with
       | v1 => hash_v1 i = Some (Reference.sha1 (Reference.bencode raw))
               /\ hash_v2 i = None
       | v2 => hash_v1 i = None
               /\ hash_v2 i = Some (Reference.sha256 (Reference.bencode raw))
       | hybrid =>
           hash_v1 i = Some (Reference.sha1 (Reference.bencode raw))
           /\ hash_v2 i = Some (Reference.sha256 (Reference.bencode raw))
       end.
Proof.
  apply (@info_hashes_by_format reference Examples.v2_file).
  vm_compute; reflexivity.
Defined.

Lemma data_bytes_reencoded_witness :
  Reference.bdecode Examples.v1_file
  = Some (data_dict (Examples.instance Examples.v1_file))
  /\ data_bytes (Examples.instance Examples.v1_file)
     = Reference.bencode (data_dict (Examples.instance Examples.v1_file))
  /\ (forall file',
        Reference.bdecode file' = Reference.bdecode Examples.v1_file ->
        Examples.construct file' = Ok (Examples.instance Examples.v1_file)).
Proof.
  apply (@data_bytes_reencoded reference Examples.v1_file).
  vm_compute; reflexivity.
Defined.


Lemma non_utf8_key_rejected_witness :
  Examples.construct Examples.bad_key_file = Raise UnicodeDecodeError
  /\ Examples.construct Examples.bad_info_key_file = Raise UnicodeDecodeError.
Proof.
  split.
  - eapply (@non_utf8_key_rejected reference Examples.bad_key_file);
      [reflexivity|left; reflexivity].
  - eapply (@non_utf8_key_rejected reference Examples.bad_info_key_file);
      [reflexivity|right; eexists; split; reflexivity].
Defined.

Lemma get_str_key_data_dict_keys_witness :
  get_str_key_data_dict
    (VDict [("announce", VBytes "x");
            ("info", VDict [("name", VBytes "n")]);
            ("other", VDict [("info", VDict [])])])
  = Ok [("announce", Raw (VBytes "x"));
        ("info", StrDict [("name", Raw (VBytes "n"))]);
        ("other", Raw (VDict [("info", VDict [])]))]
  /\ map fst [("announce", Raw (VBytes "x"));
              ("info", StrDict [("name", Raw (VBytes "n"))]);
              ("other", Raw (VDict [("info", VDict [])]))]
     = ["announce"; "info"; "other"].
Proof.
  assert (H : get_str_key_data_dict
                (VDict [("announce", VBytes "x");
                        ("info", VDict [("name", VBytes "n")]);
                        ("other", VDict [("info", VDict [])])])
              = Ok [("announce", Raw (VBytes "x"));
                    ("info", StrDict [("name", Raw (VBytes "n"))]);
                    ("other", Raw (VDict [("info", VDict [])]))])
    by reflexivity.
  split; [exact H|].
  exact (proj1 (get_str_key_data_dict_keys _ _ H)).
Defined.


Lemma __init___succeeds_iff_witness :
  exists t, Examples.construct Examples.hybrid_file = Ok t.
Proof.
  eapply (@__init___succeeds_iff reference Examples.hybrid_file);
    [reflexivity|reflexivity|reflexivity|].
  exists hybrid; split; [reflexivity|split].
  - split; [split; [discriminate|left; discriminate]|].
    repeat split; discriminate.
  - intros [_ Hlength]; apply Hlength; reflexivity.
Defined.

Lemma constructed_fields_by_format_witness :
  exists d i,
    _data (Examples.instance Examples.hybrid_file) = Some d
    /\ info (Examples.instance Examples.hybrid_file) = Some i
    /\ match format i with
       | v1 =>
           Data.Info.meta_version (Data.info d) = None
           /\ Data.Info.pieces (Data.info d) <> None
           /\ ((Data.Info.files (Data.info d) <> None
                /\ Data.Info.length (Data.info d) = None)
               \/ (Data.Info.files (Data.info d) = None
                   /\ Data.Info.length (Data.info d) <> None))
       | v2 =>
           Data.Info.meta_version (Data.info d) = Some 2
           /\ Data.Info.files (Data.info d) = None
           /\ Data.Info.file_tree (Data.info d) <> None
           /\ Data.piece_layers d <> None
       | hybrid =>
           Data.Info.meta_version (Data.info d) = Some 2
           /\ Data.Info.files (Data.info d) <> None
           /\ Data.Info.length (Data.info d) = None
           /\ Data.Info.pieces (Data.info d) <> None
           /\ Data.Info.file_tree (Data.info d) <> None
           /\ Data.piece_layers d <> None
       end.
Proof.
  apply (@constructed_fields_by_format reference Examples.hybrid_file).
  vm_compute; reflexivity.
Defined.


Lemma _get_files_xl_validated_witness :
  _get_files_xl (Examples.instance Examples.v1_files_file) = Ok (Some 350).
Proof.
  destruct (@__init___inv reference Examples.v1_files_file
              (Examples.instance Examples.v1_files_file))
    as (decoded & kw & d & i & _ & _ & _ & _ & Hvalid & Hdata & _);
    [vm_compute; reflexivity|].
  destruct (@_get_files_xl_validated reference _ kw d Hdata Hvalid)
    as (Hfiles & _).
  vm_compute in Hdata; injection Hdata as <-.
  rewrite (Hfiles _ eq_refl); [reflexivity|].
  repeat constructor.
Defined.

Lemma get_magnet_parameters_witness :
  exists params,
    "magnet:?xt=urn:btih:a4447d6e66b5ea4c138792087bcef6015fc13c0e&dn=a%26b%3Dc%20d/e&xl=350&ws=http%3A//w/x&tr=http%3A//a&tr=http%3A//b&tr=http%3A//c"
    = String.append "magnet:?" (join "&" params)
    /\ Forall parameter params
    /\ split_on "&" (join "&" params) = params
    /\ exists value rest, params = String.append "xt=" value :: rest.
Proof.
  apply (get_magnet_parameters (Examples.instance Examples.v1_files_file)
           true true true true false).
  vm_compute; reflexivity.
Defined.

Lemma get_magnet_constructed_witness :
  (exists s,
      get_magnet (Examples.instance Examples.v2_empty_file)
        true false true true false = Ok s)
  /\ get_magnet (Examples.instance Examples.v2_empty_file)
       true true true true false = Raise AssertionError.
Proof.
  destruct (@get_magnet_constructed reference Examples.v2_empty_file
              (Examples.instance Examples.v2_empty_file)
              true true true false) as [Hplain Hxl];
    [vm_compute; reflexivity|].
  split; [exact Hplain|exact Hxl].
Defined.

Lemma data_dict_setter_same_witness :
  @data_dict_setter reference (Examples.instance Examples.hybrid_file)
    (data_dict (Examples.instance Examples.hybrid_file))
  = (Examples.instance Examples.hybrid_file, Ok tt).
Proof.
  apply (@data_dict_setter_same reference Examples.hybrid_file).
  vm_compute; reflexivity.
Defined.

Lemma data_dict_setter_success_witness :
  Examples.construct Examples.v1_without_pieces
  = Raise (Parse_error Bad_file_format)
  /\ exists self',
      @data_dict_setter reference (Examples.instance Examples.v1_file)
        Examples.without_pieces = (self', Ok tt).
Proof.
  split; [reflexivity|].
  eapply (proj2 (@data_dict_setter_success reference
                   (Examples.instance Examples.v1_file)
                   Examples.without_pieces)); reflexivity.
Defined.

Lemma validate_extra_key_witness :
  @Data.Info.validate reference
    (StrDict [("private", Raw (VInt 1)); ("name", Raw (VBytes "n"));
              ("piece length", Raw (VInt 16384))])
  = Some (Data.Info.Build "n" 16384 None None None None None None
            [("private", Raw (VInt 1))]).
Proof.
  etransitivity;
    [exact (proj2 (@validate_extra_key reference "private" (Raw (VInt 1))
                     [("name", Raw (VBytes "n"));
                      ("piece length", Raw (VInt 16384))]) eq_refl)|].
  reflexivity.
Defined.

Lemma get_magnet_read_back_witness :
  parameters_with "tr"
    "magnet:?xt=urn:btih:a4447d6e66b5ea4c138792087bcef6015fc13c0e&dn=a%26b%3Dc%20d/e&xl=350&ws=http%3A//w/x&tr=http%3A//a"
  = ["tr=http%3A//a"].
Proof.
  destruct (_data (Examples.instance Examples.v1_files_file)) as [d|] eqn:Hd;
    [|vm_compute in Hd; discriminate].
  destruct (get_magnet_read_back (Examples.instance Examples.v1_files_file) d
              true true true true true _ Hd eq_refl) as (_ & _ & _ & Htr).
  vm_compute in Hd; injection Hd as <-.
  exact Htr.
Defined.
